(** * Sipri.py: the sheet normaliser and the spending data set

    A shallow embedding of [src/venv/src/Sipri.py].  The two classes of the
    file, [Sheet] and [Sipri], become the modules [Sheet] and [Sipri]; the
    Python and pandas primitives they call are collected in the module [Py].

    Data frames are lists of rows in frame order.  A Python [float] (and a
    cell of a [float64] column) is an IEEE binary64 value, taken from the
    Standard Library's [SpecFloat]; a missing value of a [float64] column is
    NaN, as in pandas.

    Two behaviours of pandas are left open, as parameters of the
    definitions that depend on them: what [pandas.to_numeric] reads in a
    label that is a text or an integer beyond 64 bits ([reads], in
    [Sheet]), and the order of the rows of an outer join ([join_order], in
    [Sipri]).  The data base of [pycountry] is a parameter too. *)

From Stdlib Require Import ZArith List Bool Ascii String Lia SpecFloat Sorted
  Permutation.
Import ListNotations.

Local Open Scope string_scope.
Local Open Scope list_scope.
Local Open Scope Z_scope.

Set Implicit Arguments.

(* ===================================================================== *)
(** * Python and pandas primitives                                        *)
(* ===================================================================== *)

Module Py.

(** ** Exceptions and results *)

Inductive pyexc : Type :=
| ValueError
| TypeError
| OverflowError
| IndexError
| KeyError
| AttributeError.

Inductive result (A : Type) : Type :=
| Ok (a : A)
| Raise (e : pyexc).

Arguments Ok {A} a.
Arguments Raise {A} e.

Definition bind {A B : Type} (m : result A) (k : A -> result B) : result B :=
  match m with
  | Ok a => k a
  | Raise e => Raise e
  end.

Notation "x <- m ;; k" := (bind m (fun x => k))
  (at level 61, m at next level, right associativity).

(** [Series.apply(f)]: the calls are made in row order, the first exception
    propagates. *)
Fixpoint mapM {A B : Type} (f : A -> result B) (l : list A) : result (list B) :=
  match l with
  | [] => Ok []
  | a :: l' => b <- f a ;; bs <- mapM f l' ;; Ok (b :: bs)
  end.

(** ** Floats: IEEE binary64 *)

Definition float : Type := spec_float.

Definition prec : Z := 53.
Definition emax : Z := 1024.

Definition nan : float := S754_nan.
Definition infinity : float := S754_infinity false.
Definition neg_infinity : float := S754_infinity true.

(** [math.isnan], [numpy.isnan] *)
Definition isnan (x : float) : bool :=
  match x with
  | S754_nan => true
  | _ => false
  end.

(** [math.isfinite] *)
Definition isfinite (x : float) : bool :=
  match x with
  | S754_zero _ | S754_finite _ _ _ => true
  | _ => false
  end.

Definition fsub (x y : float) : float := SFsub prec emax x y.
Definition fdiv (x y : float) : float := SFdiv prec emax x y.

(** The integer [z] rounded to the nearest binary64 (ties to even); the
    result is an infinity when [z] is beyond the binary64 range. *)
Definition round_Z (z : Z) : float := binary_normalize prec emax z 0 false.

(** The decimal [m * 10 ^ e], correctly rounded. *)
Definition round_decimal (neg : bool) (m : Z) (e : Z) : float :=
  match m with
  | Zpos p =>
      if 0 <=? e then binary_round prec emax neg (p * Z.to_pos (10 ^ e)) 0
      else
        let '(q, e', l) :=
          SFdiv_core_binary prec emax (Zpos p) 0 (10 ^ (- e)) 0 in
        binary_round_aux prec emax neg q e' l
  | _ => S754_zero neg
  end.

(** ** Cells *)

(** What [pandas.read_excel] leaves in an object column for a number cell, a
    text cell and an empty cell: a Python [int], a [float] (NaN for the empty
    cell) or a [str].  A sheet with a cell of another kind (a date, a time, a
    boolean) is outside this development: every statement about sheets is
    about sheets of these three kinds of cells. *)
Inductive cell : Type :=
| CInt (z : Z)
| CFloat (x : float)
| CStr (s : string).

(** [pandas.isna] on one cell *)
Definition isna (c : cell) : bool :=
  match c with
  | CFloat x => isnan x
  | _ => false
  end.

(** Python [==] between an [int] and a [float] compares the exact values. *)
Definition float_eq_Z (x : float) (z : Z) : bool :=
  match x with
  | S754_zero _ => z =? 0
  | S754_finite s m e =>
      let v := if s then Zneg m else Zpos m in
      if 0 <=? e then z =? v * 2 ^ e else z * 2 ^ (- e) =? v
  | _ => false
  end.

(** Python [a == b] on cells. *)
Definition py_eq (a b : cell) : bool :=
  match a, b with
  | CInt x, CInt y => x =? y
  | CStr s, CStr t => String.eqb s t
  | CFloat x, CFloat y => SFeqb x y
  | CInt z, CFloat x | CFloat x, CInt z => float_eq_Z x z
  | _, _ => false
  end.

(** Python [a != b] on cells. *)
Definition py_ne (a b : cell) : bool := negb (py_eq a b).

(** [Series.isin(values)] on an object column: membership by hash and
    equality, where pandas also lets a NaN match a NaN. *)
Definition isin (c : cell) (values : list cell) : bool :=
  existsb (fun v => py_eq c v || (isna c && isna v)) values.

(** [list(range(a, b))] *)
Definition range (a b : Z) : list Z :=
  map (fun i => a + Z.of_nat i) (seq 0 (Z.to_nat (b - a))).

(** [Series.isin(values)] on an integer column. *)
Definition isin_Z (y : Z) (values : list Z) : bool :=
  existsb (Z.eqb y) values.

(** ** Strings *)

Definition is_digit (c : ascii) : bool :=
  let n := nat_of_ascii c in (48 <=? n)%nat && (n <=? 57)%nat.

Definition digit_value (c : ascii) : Z := Z.of_nat (nat_of_ascii c) - 48.

(** The white space that [float] removes at both ends of an ASCII string:
    the space and the characters from the tabulation to the carriage return
    (9 to 13).  The separators 28 to 31 are not removed. *)
Definition is_space (c : ascii) : bool :=
  let n := nat_of_ascii c in
  (n =? 32)%nat || ((9 <=? n)%nat && (n <=? 13)%nat).

Definition lower (c : ascii) : ascii :=
  let n := nat_of_ascii c in
  if (65 <=? n)%nat && (n <=? 90)%nat then ascii_of_nat (n + 32) else c.

Fixpoint str_lower (s : string) : string :=
  match s with
  | EmptyString => EmptyString
  | String c s' => String (lower c) (str_lower s')
  end.

Fixpoint lstrip (s : string) : string :=
  match s with
  | String c s' => if is_space c then lstrip s' else s
  | EmptyString => EmptyString
  end.

Fixpoint rstrip (s : string) : string :=
  match s with
  | EmptyString => EmptyString
  | String c s' =>
      match rstrip s' with
      | EmptyString => if is_space c then EmptyString else String c EmptyString
      | t => String c t
      end
  end.

Definition strip (s : string) : string := rstrip (lstrip s).

(** [s.replace(old, new)] for a non-empty [old]: every occurrence, found from
    the left and without overlap.  [skip] counts the characters of a match
    that are still to be passed over. *)
Fixpoint replace_from (old new : string) (skip : nat) (s : string) : string :=
  match s with
  | EmptyString => EmptyString
  | String c s' =>
      match skip with
      | S k => replace_from old new k s'
      | O =>
          if String.prefix old s
          then String.append new (replace_from old new (String.length old - 1) s')
          else String c (replace_from old new 0 s')
      end
  end.

Definition replace (s old new : string) : string := replace_from old new 0 s.

(** *** Number literals *)

(** A digit part, [digit (["_"] digit)*], after its first digit: the value
    read so far, the number of digits read, and what follows. *)
Fixpoint digits_rest (acc : Z) (n : nat) (s : string) : Z * nat * string :=
  match s with
  | String c s' =>
      if is_digit c then digits_rest (acc * 10 + digit_value c) (S n) s'
      else
        match s' with
        | String d s'' =>
            if Ascii.eqb c "_" && is_digit d
            then digits_rest (acc * 10 + digit_value d) (S n) s''
            else (acc, n, s)
        | EmptyString => (acc, n, s)
        end
  | EmptyString => (acc, n, s)
  end.

Definition digitpart (s : string) : option (Z * nat * string) :=
  match s with
  | String c s' =>
      if is_digit c then Some (digits_rest (digit_value c) 1 s') else None
  | EmptyString => None
  end.

(** A sign: whether it is a minus, and what follows. *)
Definition sign (s : string) : bool * string :=
  match s with
  | String c s' =>
      if Ascii.eqb c "-" then (true, s')
      else if Ascii.eqb c "+" then (false, s')
      else (false, s)
  | EmptyString => (false, s)
  end.

(** [[digitpart] "." digitpart | digitpart ["."]]: the digits as one integer,
    the number of digits after the point, and what follows. *)
Definition number (s : string) : option (Z * nat * string) :=
  match digitpart s with
  | Some (ip, _, String c r) =>
      if Ascii.eqb c "." then
        match digitpart r with
        | Some (fp, k, r') => Some (ip * 10 ^ Z.of_nat k + fp, k, r')
        | None => Some (ip, O, r)
        end
      else Some (ip, O, String c r)
  | Some (ip, _, EmptyString) => Some (ip, O, EmptyString)
  | None =>
      match s with
      | String c r =>
          if Ascii.eqb c "." then
            match digitpart r with
            | Some (fp, k, r') => Some (fp, k, r')
            | None => None
            end
          else None
      | EmptyString => None
      end
  end.

(** [("e" | "E") [sign] digitpart] up to the end of the string, or nothing. *)
Definition exponent (s : string) : option Z :=
  match s with
  | EmptyString => Some 0
  | String c r =>
      if Ascii.eqb (lower c) "e" then
        let '(neg, r') := sign r in
        match digitpart r' with
        | Some (v, _, EmptyString) => Some (if neg then - v else v)
        | _ => None
        end
      else None
  end.

(** [float(s)] for an ASCII [str], in the grammar of the language reference
    ([floatvalue]); [None] is the [ValueError] of a string that is no float
    literal.  A string with a character beyond ASCII is outside this
    definition: Python also reads the digits and removes the spaces of other
    scripts. *)
Definition float_of_string (s : string) : option float :=
  let '(neg, body) := sign (strip s) in
  let name := str_lower body in
  if String.eqb name "inf" || String.eqb name "infinity"
  then Some (S754_infinity neg)
  else if String.eqb name "nan" then Some nan
  else
    match number body with
    | Some (m, k, r) =>
        match exponent r with
        | Some e => Some (round_decimal neg m (e - Z.of_nat k))
        | None => None
        end
    | None => None
    end.

(** A plain integer literal, [[sign] digit+]. *)
Definition int_of_string (s : string) : option Z :=
  let '(neg, body) := sign (strip s) in
  match digitpart body with
  | Some (v, _, EmptyString) =>
      if existsb (Ascii.eqb "_") (list_ascii_of_string body) then None
      else Some (if neg then - v else v)
  | _ => None
  end.

(** [float(item)] *)
Definition py_float (item : cell) : result float :=
  match item with
  | CFloat x => Ok x
  | CInt z =>
      match round_Z z with
      | S754_infinity _ => Raise OverflowError
      | x => Ok x
      end
  | CStr s =>
      match float_of_string s with
      | Some x => Ok x
      | None => Raise ValueError
      end
  end.

End Py.

(* ===================================================================== *)
(** * class Sheet                                                         *)
(* ===================================================================== *)

Module Sheet.
Import Py.

(** One row of the long frame.  Its three columns are ['Year'], the column
    named by [location_type] (['Country'] or ['Region']) and ['Budget']; the
    types of the year and budget columns change along [get_df]. *)
Record row (Y B : Type) : Type := mk_row {
  Year : Y;
  Location : cell;
  Budget : B
}.

Arguments mk_row {Y B} _ _ _.
Arguments Year {Y B} _.
Arguments Location {Y B} _.
Arguments Budget {Y B} _.

(** The frame [fix_header] returns: the column named by [location_type]
    holds the labels of the header of the sheet, the years; every other
    column carries the name of a country (or region) and its cells, one for
    each label. *)
Record wide : Type := mk_wide {
  labels : list cell;
  columns : list (cell * list cell)
}.

(** [df.melt(id_vars=location_type, value_name='Budget')] and the renaming
    of the columns: column after column, one row for each label. *)
Definition melt (df : wide) : list (row cell cell) :=
  flat_map (fun column =>
              map (fun yb => mk_row (fst yb) (fst column) (snd yb))
                  (combine (labels df) (snd column)))
           (columns df).

(** [df.dropna()]: a row with a missing value in any column goes. *)
Definition dropna (df : list (row cell cell)) : list (row cell cell) :=
  filter (fun r => negb (isna (Year r) || isna (Location r) || isna (Budget r))) df.

(** [living_countries]: the names on the rows of year 2020 whose budget is
    not the token ["xxx"]. *)
Definition living_countries (df : list (row cell cell)) : list cell :=
  map Location
    (filter (fun r => py_eq (Year r) (CInt 2020) && py_ne (Budget r) (CStr "xxx")) df).

Definition remove_dead_countries (df : list (row cell cell)) : list (row cell cell) :=
  filter (fun r => isin (Location r) (living_countries df)) df.

(** [clean_budget]: [None] is Python's [None]. *)
Definition clean_budget (item : cell) : result (option float) :=
  match py_float item with
  | Raise ValueError => Ok None
  | Raise e => Raise e
  | Ok x => if isnan x then Ok None else Ok (Some x)
  end.

(** [.astype('float64')] on the results of [clean_budget]: [None] becomes
    NaN, the missing value of the column. *)
Definition astype_float64 (v : option float) : float :=
  match v with
  | Some x => x
  | None => nan
  end.

Definition fix_budget (df : list (row cell cell)) : result (list (row cell float)) :=
  let df := dropna df in
  let df := remove_dead_countries df in
  mapM (fun r => b <- clean_budget (Budget r) ;;
                 Ok (mk_row (Year r) (Location r) (astype_float64 b))) df.

(** A number as [pandas.to_numeric] reads it from an object column. *)
Inductive num : Type :=
| NInt (z : Z)
| NFloat (x : float).

(** In a [float64] column an integer is the nearest float. *)
Definition num_float (n : num) : float :=
  match n with
  | NInt z => round_Z z
  | NFloat x => x
  end.

(** The integers of the dtype [int64]. *)
Definition int64 (z : Z) : bool := (- 2 ^ 63 <=? z) && (z <? 2 ^ 63).

(** The absolute tolerance of [numpy.allclose], [1e-08]. *)
Definition atol : float := round_decimal false 1 (-8).

(** [m1 * 2 ^ e1 <= m2 * 2 ^ e2] *)
Definition dyadic_leb (m1 e1 m2 e2 : Z) : bool :=
  let e := Z.min e1 e2 in
  m1 * 2 ^ (e1 - e) <=? m2 * 2 ^ (e2 - e).

(** [r * 2 ^ e <= atol] *)
Definition within_atol (r e : Z) : bool :=
  match atol with
  | S754_finite _ ma ea => dyadic_leb r e (Zpos ma) ea
  | _ => false
  end.

(** What [downcast="integer"] makes of one value of a [float64] column: the
    cast to an integer dtype truncates, and the result is kept when it is
    close to the value, [numpy.allclose(new, old, rtol=0)], that is within
    [atol] of it.  The difference between a float and its truncation is a
    float again, so the test is on exact values.  A value whose truncation
    does not fit [int64], an infinity and NaN are not downcast. *)
Definition float_downcast (x : float) : option Z :=
  match x with
  | S754_zero _ => Some 0
  | S754_finite s m e =>
      if 0 <=? e then
        let v := (if s then Zneg m else Zpos m) * 2 ^ e in
        if int64 v then Some v else None
      else
        let q := Zpos m / 2 ^ (- e) in
        let q := if s then - q else q in
        if within_atol (Zpos m mod 2 ^ (- e)) e && int64 q then Some q else None
  | _ => None
  end.

(** The frame [get_df] returns: its ['Year'] column has an integer dtype, or
    stays [float64] when the downcast is not possible. *)
Inductive frame : Type :=
| IntYears (rows : list (row Z float))
| FloatYears (rows : list (row float float)).

(** A column in which [pandas.to_numeric] read integers only is a column of
    integers, with these values. *)
Fixpoint integer_years (df : list (row num float)) : option (list (row Z float)) :=
  match df with
  | [] => Some []
  | r :: df' =>
      match Year r, integer_years df' with
      | NInt z, Some rows => Some (mk_row z (Location r) (Budget r) :: rows)
      | _, _ => None
      end
  end.

(** Any other column is a [float64] column, in which an integer is the
    nearest float; it is downcast when each of its values is. *)
Fixpoint downcast_years (df : list (row num float)) : option (list (row Z float)) :=
  match df with
  | [] => Some []
  | r :: df' =>
      match float_downcast (num_float (Year r)), downcast_years df' with
      | Some z, Some rows => Some (mk_row z (Location r) (Budget r) :: rows)
      | _, _ => None
      end
  end.

(** The column that [pandas.to_numeric(..., downcast="integer")] returns for
    the numbers it read. *)
Definition downcast_integer (df : list (row num float)) : frame :=
  match integer_years df with
  | Some rows => IntYears rows
  | None =>
      match downcast_years df with
      | Some rows => IntYears rows
      | None =>
          FloatYears
            (map (fun r => mk_row (num_float (Year r)) (Location r) (Budget r)) df)
      end
  end.

(** [df.loc[df["Year"] != "2020 Current"]] *)
Definition drop_2020_Current (df : list (row cell float)) : list (row cell float) :=
  filter (fun r => py_ne (Year r) (CStr "2020 Current")) df.

(** The year of a row of an integer column, beside the number read in its
    label: that integer, or the downcast of its float. *)
Definition downcast_to (n : num) (y : Z) : Prop :=
  n = NInt y \/ float_downcast (num_float n) = Some y.

(** The integer a number stands for in an integer column, whatever stands
    beside it: an integer that a float holds exactly, or a float that is
    downcast. *)
Definition num_integer (n : num) : option Z :=
  match n with
  | NInt z =>
      match float_downcast (round_Z z) with
      | Some z' => if z' =? z then Some z else None
      | None => None
      end
  | NFloat x => float_downcast x
  end.

Section Pandas.

(** [pandas.to_numeric] reads a label that is a float, or an integer of 64
    bits, as that number.  What it makes of a text and of an integer beyond
    64 bits is the business of the library and differs from Python's own
    reading of literals; it is left open here: [reads label] is the number
    pandas reads in such a label, or the exception it raises
    ([errors='raise'] is the default). *)
Variable reads : cell -> result num.

(** [pandas.to_numeric] on one label *)
Definition to_numeric (c : cell) : result num :=
  match c with
  | CInt z => if int64 z then Ok (NInt z) else reads c
  | CFloat x => Ok (NFloat x)
  | CStr _ => reads c
  end.

Definition fix_year (df : list (row cell float)) : result frame :=
  let df := drop_2020_Current df in
  df <- mapM (fun r => y <- to_numeric (Year r) ;;
                       Ok (mk_row y (Location r) (Budget r))) df ;;
  Ok (downcast_integer df).

(** [get_df], from the frame that [fix_header] returns. *)
Definition get_df (df : wide) : result frame :=
  let df := melt df in
  df <- fix_budget df ;;
  fix_year df.

(** The integer a year label denotes, if it denotes one. *)
Definition year_integer (label : cell) : option Z :=
  match to_numeric label with
  | Ok n => num_integer n
  | Raise _ => None
  end.

(** The rows of a returned frame are, in order, the given rows with their
    year labels read as numbers. *)
Definition rows_of (df : list (row cell float)) (fr : frame) : Prop :=
  match fr with
  | IntYears rows =>
      Forall2 (fun r r' => (exists n, to_numeric (Year r) = Ok n
                                      /\ downcast_to n (Year r'))
                           /\ Location r' = Location r /\ Budget r' = Budget r)
              df rows
  | FloatYears rows =>
      Forall2 (fun r r' => (exists n, to_numeric (Year r) = Ok n /\ Year r' = num_float n)
                           /\ Location r' = Location r /\ Budget r' = Budget r)
              df rows
  end.

End Pandas.

(** The columns of a returned frame. *)
Definition locations (fr : frame) : list cell :=
  match fr with
  | IntYears rows => map Location rows
  | FloatYears rows => map Location rows
  end.

Definition budgets (fr : frame) : list float :=
  match fr with
  | IntYears rows => map Budget rows
  | FloatYears rows => map Budget rows
  end.

(** A row of the frame [fix_budget] returns, beside the row it comes from. *)
Definition coerced (r : row cell cell) (r' : row cell float) : Prop :=
  Year r' = Year r /\ Location r' = Location r /\
  exists v, clean_budget (Budget r) = Ok v /\ Budget r' = astype_float64 v.

End Sheet.

(* ===================================================================== *)
(** * class Sipri                                                         *)
(* ===================================================================== *)

Module Sipri.
Import Py Sheet.

(** The frame [df] of a sheet whose ['Year'] column has an integer dtype
    (the case [IntYears] of [get_df]). *)
Definition table : Type := list (row Z float).

(** The two sheets read by [__init__]: ['Constant (2019) USD'] with the
    location type ['Country'], and ['Regional totals'] with ['Region']. *)
Record sipri : Type := mk_sipri {
  constant_USD : table;
  regional_totals : table
}.

(** ** Selection *)

(** [__select_df]; [tick_year_list[0]] raises [IndexError] on an empty
    list. *)
Definition select_df (sheet : table) (country_names : list cell)
    (tick_year_list : list Z) (last_year : Z) : result table :=
  match tick_year_list with
  | [] => Raise IndexError
  | first :: _ =>
      let full_year_list := range first last_year in
      Ok (filter (fun r => isin_Z (Year r) full_year_list
                           && isin (Location r) country_names) sheet)
  end.

(** The default value of the parameter [last_year]. *)
Definition default_last_year : Z := 2021.

(** ** Regions and the USA *)

(** [__transform_country_to_regional]; the renaming of the column
    ['Country'] to ['Region'] leaves the rows as they are. *)
Definition transform_country_to_regional (df : table) : table :=
  map (fun r => mk_row (Year r) (Location r) (fdiv (Budget r) (round_Z 1000))) df.

(** A series: the ['Budget'] column of a frame indexed by ['Year']. *)
Definition series : Type := list (Z * float).

Definition by_year (df : table) : series :=
  map (fun r => (Year r, Budget r)) df.

Fixpoint years_equal (l r : list Z) : bool :=
  match l, r with
  | [], [] => true
  | x :: l', y :: r' => (x =? y) && years_equal l' r'
  | _, _ => false
  end.

(** Insertion into an increasing list without repetition. *)
Fixpoint insert_year (y : Z) (l : list Z) : list Z :=
  match l with
  | [] => [y]
  | x :: l' =>
      if y <? x then y :: l
      else if y =? x then l
      else x :: insert_year y l'
  end.

(** The union of two indexes, in increasing order. *)
Definition union_years (l r : list Z) : list Z :=
  fold_right insert_year [] (l ++ r).

(** The values a series has at a label; after reindexing, NaN where it has
    none. *)
Definition values_at (y : Z) (s : series) : list float :=
  match map snd (filter (fun p => fst p =? y) s) with
  | [] => [nan]
  | vs => vs
  end.

(** Insertion by rank, after the elements of the same rank. *)
Fixpoint insert_ranked {A : Type} (k : Z) (a : A) (l : list (Z * A)) : list (Z * A) :=
  match l with
  | [] => [(k, a)]
  | p :: l' => if k <? fst p then (k, a) :: l else p :: insert_ranked k a l'
  end.

(** The elements of [l] by increasing rank, [rank i] being the rank of the
    element at position [i]. *)
Definition arrange {A : Type} (rank : nat -> Z) (l : list A) : list A :=
  map snd (fold_right (fun ia acc => insert_ranked (rank (fst ia)) (snd ia) acc) []
                      (combine (seq 0 (List.length l)) l)).

Section Alignment.

(** The order in which pandas returns the rows of an outer join is not the
    same in every version (increasing labels, or the order of one side when
    the other is empty); it is left open here.  With the rows of the join
    listed by increasing label, [join_order lhs rhs i] is the rank pandas
    gives to the row at position [i], for the two indexes [lhs] and [rhs]:
    the rows come by increasing rank. *)
Variable join_order : list Z -> list Z -> nat -> Z.

(** [lhs - rhs] on two frames indexed by year: pandas subtracts row by row
    when the two indexes are equal; otherwise it aligns both sides on the
    union of the indexes (an outer join, a label repeated on both sides
    giving every pairing) and fills what one side lacks with NaN. *)
Definition subtract_aligned (lhs rhs : series) : series :=
  if years_equal (map fst lhs) (map fst rhs)
  then map (fun p => (fst (fst p), fsub (snd (fst p)) (snd (snd p)))) (combine lhs rhs)
  else
    arrange (join_order (map fst lhs) (map fst rhs))
      (flat_map (fun y =>
         flat_map (fun a => map (fun b => (y, fsub a b)) (values_at y rhs))
                  (values_at y lhs))
         (union_years (map fst lhs) (map fst rhs))).

Definition is_americas (r : row Z float) : bool :=
  py_eq (Location r) (CStr "Americas").

(** [__subtract_usa_from_americas].  The labels of the rows of [region_df]
    are distinct (they come from the range index of [melt]), so dropping the
    labels of the rows of Americas drops those rows and no other. *)
Definition subtract_usa_from_americas (region_df usa_df : table) : table :=
  let americas_df :=
    subtract_aligned (by_year (filter is_americas region_df)) (by_year usa_df) in
  let americas_df :=
    map (fun p => mk_row (fst p) (CStr "Americas minus US") (snd p)) americas_df in
  let region_df := filter (fun r => negb (is_americas r)) region_df in
  region_df ++ americas_df.

(** ['Americas' in region_names] *)
Definition contains (x : cell) (l : list cell) : bool := existsb (py_eq x) l.

(** [__merge_USA_into_regional] *)
Definition merge_USA_into_regional (self : sipri) (region_names : list cell)
    (tick_year_list : list Z) : result table :=
  region_df <- select_df (regional_totals self) region_names tick_year_list
                 default_last_year ;;
  usa_df <- select_df (constant_USD self) [CStr "USA"] tick_year_list
              default_last_year ;;
  let usa_df := transform_country_to_regional usa_df in
  let region_df :=
    if contains (CStr "Americas") region_names
    then subtract_usa_from_americas region_df usa_df
    else region_df in
  Ok (region_df ++ usa_df).

End Alignment.

(** ** Country identifiers *)

Definition sipri_to_ISO_country_map : list (string * string) :=
  [ ("Cape Verde", "Cabo Verde");
    ("Congo, Republic of", "Congo");
    ("Congo, Dem. Rep.", "Congo, The Democratic Republic of the");
    ("Côte d’Ivoire", "Côte d'Ivoire");
    ("Trinidad & Tobago", "Trinidad and Tobago");
    ("USA", "United States");
    ("Korea, South", "Korea, Republic of");
    ("Korea, North", "Korea, Democratic People's Republic of");
    ("Brunei", "Brunei Darussalam");
    ("Bosnia-Herzegovina", "Bosnia and Herzegovina");
    ("Russia", "Russian Federation");
    ("UK", "United Kingdom");
    ("Iran", "Iran, Islamic Republic of");
    ("Laos", "Lao People's Democratic Republic");
    ("Syria", "Syrian Arab Republic");
    ("UAE", "United Arab Emirates") ].

(** [d[key]] on a dictionary of strings *)
Fixpoint getitem (d : list (string * string)) (key : string) : result string :=
  match d with
  | [] => Raise KeyError
  | (k, v) :: d' => if String.eqb k key then Ok v else getitem d' key
  end.

(** [__map_country_name] *)
Definition map_country_name (country_name : string) : string :=
  let mapped_name :=
    match getitem sipri_to_ISO_country_map country_name with
    | Ok v => v
    | Raise _ => country_name
    end in
  replace mapped_name "Rep." "Republic".

Section Pycountry.

(** The data base of the package [pycountry], which is no part of the
    repository: its records, their attribute [numeric], and the two queries
    [pycountry.countries.get(name=...)] and [...get(common_name=...)], which
    return [None] when no record matches. *)
Variable country : Type.
Variable numeric : country -> string.
Variable get_name : string -> option country.
Variable get_common_name : string -> option country.

(** [__get_country_id]; [iso.numeric] on [None] raises [AttributeError]. *)
Definition get_country_id (country_name : string) : result cell :=
  if String.eqb country_name "Kosovo" then Ok (CInt 0)
  else
    let iso := get_name (map_country_name country_name) in
    let iso :=
      match iso with
      | Some c => Some c
      | None => get_common_name (map_country_name country_name)
      end in
    match iso with
    | Some c => Ok (CStr (numeric c))
    | None => Raise AttributeError
    end.

End Pycountry.

End Sipri.

(* ===================================================================== *)
(** * The frames behind the charts                                        *)
(* ===================================================================== *)

(** The chart methods of [Sipri] select a frame and hand it to the charting
    library.  The frame is modelled, the drawing is not. *)
Module Views.
Import Py Sheet Sipri.

Definition fmul (x y : float) : float := SFmul prec emax x y.

(** [a < b] on floats; false when either side is NaN. *)
Definition fltb (x y : float) : bool := SFltb x y.

(** [df.dropna()] on the frame of a sheet; an integer year is never
    missing. *)
Definition dropna (df : table) : table :=
  filter (fun r => negb (isna (Location r) || isnan (Budget r))) df.

(** The frame [budgets] of [budget_histogram]. *)
Definition budget_histogram (self : sipri) (year : Z)
    (removed_countries : list cell) : table :=
  let df := constant_USD self in
  let budgets :=
    filter (fun r => (Year r =? year)
                     && Bool.eqb (isin (Location r) removed_countries) false) df in
  dropna budgets.

(** The frame [budgets] of [budget_histogram_by_scale], for a [scale] that
    is a float; [scale * 10] is then the product of two floats. *)
Definition budget_histogram_by_scale (self : sipri) (year : Z) (scale : float)
    : table :=
  let df := constant_USD self in
  let budgets :=
    filter (fun r => (Year r =? year) && fltb scale (Budget r)
                     && fltb (Budget r) (fmul scale (round_Z 10))) df in
  dropna budgets.

(** The frame a line chart is drawn from: the selected rows, each with its
    label when labels were given; or, when labels went into a frame without
    rows, one row for each label, in which the year, the country and the
    budget are missing. *)
Inductive line_frame : Type :=
| Plain (rows : table)
| Labelled (rows : list (row Z float * cell))
| Unfilled (label_list : list cell).

(** [selected_df.insert(3, "Labels", label_list, True)]: the list becomes a
    column.  A frame without rows takes its index from a list that has
    values, whatever their number; otherwise the list must have one value
    for each row, else [ValueError] is raised. *)
Definition insert_labels (selected_df : table) (label_list : list cell)
    : result line_frame :=
  match selected_df, label_list with
  | [], _ :: _ => Ok (Unfilled label_list)
  | _, _ =>
      if (List.length label_list =? List.length selected_df)%nat
      then Ok (Labelled (combine selected_df label_list))
      else Raise ValueError
  end.

(** The frame [selected_df] of [budget_line_chart]; [if label_list:] is
    false for the empty list. *)
Definition budget_line_chart (self : sipri) (country_names : list cell)
    (tick_year_list : list Z) (last_year : Z) (label_list : list cell)
    : result line_frame :=
  selected_df <- select_df (constant_USD self) country_names tick_year_list
                   last_year ;;
  match label_list with
  | [] => Ok (Plain selected_df)
  | _ => insert_labels selected_df label_list
  end.

(** [old in s] on strings *)
Fixpoint occurs (old s : string) : bool :=
  String.prefix old s
  || match s with
     | EmptyString => false
     | String _ s' => occurs old s'
     end.

(** The rows [__subtract_usa_from_americas] derives are those it names
    "Americas minus US". *)
Definition is_minus_US (r : row Z float) : bool :=
  py_eq (Location r) (CStr "Americas minus US").

End Views.

(* ===================================================================== *)
(** * The identifier resolution as the specification words it            *)
(* ===================================================================== *)

Module Spec.
Import Py Sipri.

(** The outcome of a resolution: a numeric identifier, or the error
    [UnresolvedEntity]. *)
Inductive resolution : Type :=
| Identifier (id : cell)
| UnresolvedEntity.

(** The alias table: the canonical name of a spelling it lists, the name
    itself otherwise. *)
Definition alias (entity_name : string) : string :=
  match find (fun kv => String.eqb (fst kv) entity_name) sipri_to_ISO_country_map with
  | Some kv => snd kv
  | None => entity_name
  end.

(** The substitution of the abbreviation "Rep." *)
Definition expand_Rep (name : string) : string := replace name "Rep." "Republic".

(** The lookup strategies are tried in order; the first hit wins. *)
Fixpoint first_hit {A : Type} (strategies : list (string -> option A))
    (name : string) : option A :=
  match strategies with
  | [] => None
  | lookup :: rest =>
      match lookup name with
      | Some a => Some a
      | None => first_hit rest name
      end
  end.

Section Lookups.

Variable country : Type.
Variable numeric : country -> string.
Variable literal_name : string -> option country.
Variable common_name : string -> option country.

(** [resolveIdentifier]: the Kosovo special case; otherwise the alias table
    first, the substitution on its result, then the literal-name lookup, then
    the common-name lookup. *)
Definition resolveIdentifier (entity_name : string) : resolution :=
  if String.eqb entity_name "Kosovo" then Identifier (CInt 0)
  else
    match first_hit [literal_name; common_name] (expand_Rep (alias entity_name)) with
    | Some c => Identifier (CStr (numeric c))
    | None => UnresolvedEntity
    end.

End Lookups.

(** How the code reports a resolution: the identifier is returned, and
    [UnresolvedEntity] is the [AttributeError] of [iso.numeric] on [None]. *)
Definition reported (r : resolution) : result cell :=
  match r with
  | Identifier id => Ok id
  | UnresolvedEntity => Raise AttributeError
  end.

End Spec.

(* ===================================================================== *)
(** * Sample data                                                         *)
(* ===================================================================== *)

Module Samples.
Import Py Sheet Sipri.

Definition flt (z : Z) : float := round_Z z.

(** One reading of the labels that [to_numeric] leaves open, for the
    examples (it is not meant as that of pandas): a text that is a plain
    integer literal of 64 bits is that integer and any other text raises
    [ValueError]; an integer beyond 64 bits becomes a float. *)
Definition reads_integers (label : cell) : result num :=
  match label with
  | CStr s =>
      match int_of_string s with
      | Some z => if int64 z then Ok (NInt z) else Raise ValueError
      | None => Raise ValueError
      end
  | CInt z => Ok (NFloat (round_Z z))
  | CFloat x => Ok (NFloat x)
  end.

(** The rows of a join by increasing label. *)
Definition by_label (lhs rhs : list Z) (i : nat) : Z := Z.of_nat i.

(** A sheet: the country A has the token "xxx" in 2020 and a number in
    2019, the country B reports in 2020, and the header has the extra column
    "2020 Current". *)
Definition tab : wide :=
  mk_wide [ CInt 2019; CInt 2020; CStr "2020 Current" ]
          [ (CStr "A", [ CFloat (flt 5); CStr "xxx"; CStr "xxx" ]);
            (CStr "B", [ CStr ". ."; CInt 7; CInt 9 ]) ].


(** The year 2019.5 *)
Definition mid_2019 : float := round_decimal false 20195 (-1).

Definition normalized : table :=
  [ mk_row 2019 (CStr "B") nan;
    mk_row 2020 (CStr "B") (flt 7) ].

Definition regions : table :=
  [ mk_row 2018 (CStr "Americas") (flt 900);
    mk_row 2019 (CStr "Americas") (flt 1000);
    mk_row 2019 (CStr "Europe") (flt 300);
    mk_row 2020 (CStr "Americas") (flt 1100) ].

Definition countries : table :=
  [ mk_row 2019 (CStr "USA") (flt 700000);
    mk_row 2020 (CStr "USA") (flt 800000);
    mk_row 2019 (CStr "France") (flt 50000) ].

Definition dataset : sipri := mk_sipri countries regions.

(** A few records in the manner of [pycountry]. *)
Record iso_record : Type := mk_iso {
  iso_name : string;
  iso_common_name : option string;
  iso_numeric : string
}.

Definition iso_records : list iso_record :=
  [ mk_iso "United States" None "840";
    mk_iso "Bolivia, Plurinational State of" (Some "Bolivia") "068";
    mk_iso "Congo, The Democratic Republic of the" None "180";
    mk_iso "Central African Republic" None "140" ].

Definition by_name (name : string) : option iso_record :=
  find (fun c => String.eqb (iso_name c) name) iso_records.

Definition by_common_name (name : string) : option iso_record :=
  find (fun c => match iso_common_name c with
                 | Some n => String.eqb n name
                 | None => false
                 end) iso_records.

End Samples.

(* ===================================================================== *)
(** * Facts about the primitives                                          *)
(* ===================================================================== *)

Unset Implicit Arguments.

Module PyFacts.
Import Py.

Lemma range_spec (a b y : Z) : In y (range a b) <-> a <= y < b.
Proof.
  unfold range. rewrite in_map_iff. split.
  - intros (i & <- & Hi). apply in_seq in Hi. lia.
  - intros Hy. exists (Z.to_nat (y - a)). split; [lia|].
    apply in_seq. lia.
Qed.

Lemma isin_Z_spec (y : Z) (values : list Z) :
  isin_Z y values = true <-> In y values.
Proof.
  unfold isin_Z. rewrite existsb_exists. split.
  - intros (x & Hx & Heq). apply Z.eqb_eq in Heq. now subst.
  - intros Hy. exists y. split; [assumption | apply Z.eqb_refl].
Qed.

Lemma isin_Z_range (a b y : Z) :
  isin_Z y (range a b) = (a <=? y) && (y <? b).
Proof.
  apply eq_true_iff_eq. rewrite isin_Z_spec, range_spec, andb_true_iff.
  rewrite Z.leb_le, Z.ltb_lt. tauto.
Qed.

Lemma py_eq_CStr_l (s : string) (c : cell) :
  py_eq (CStr s) c = true <-> c = CStr s.
Proof.
  destruct c as [z|x|t]; simpl; split; try discriminate.
  - intros H. apply String.eqb_eq in H. now subst.
  - intros [= ->]. apply String.eqb_refl.
Qed.

Lemma py_eq_CStr_r (s : string) (c : cell) :
  py_eq c (CStr s) = true <-> c = CStr s.
Proof.
  destruct c as [z|x|t]; simpl; split; try discriminate.
  - intros H. apply String.eqb_eq in H. now subst.
  - intros [= ->]. apply String.eqb_refl.
Qed.

(** A text is in a list of values exactly when that text is listed. *)
Lemma isin_CStr (s : string) (values : list cell) :
  isin (CStr s) values = true <-> In (CStr s) values.
Proof.
  unfold isin. rewrite existsb_exists. split.
  - intros (v & Hv & H). apply orb_true_iff in H. destruct H as [H|H].
    + apply py_eq_CStr_l in H. now subst.
    + discriminate H.
  - intros H. exists (CStr s). split; [assumption|].
    apply orb_true_iff. left. now apply py_eq_CStr_l.
Qed.

Lemma SFcompare_refl_finite (s : bool) (m : positive) (e : Z) :
  SFcompare (S754_finite s m e) (S754_finite s m e) = Some Eq.
Proof.
  simpl. destruct s; rewrite Z.compare_refl, ?Pos.compare_cont_refl; reflexivity.
Qed.

(** A value is found among values that list it. *)
Lemma isin_In (c : cell) (values : list cell) :
  In c values -> isin c values = true.
Proof.
  intros H. unfold isin. apply existsb_exists. exists c. split; [assumption|].
  destruct c as [z|x|s]; simpl.
  - now rewrite Z.eqb_refl.
  - destruct x as [b|b| |b m e].
    + reflexivity.
    + now destruct b.
    + reflexivity.
    + unfold SFeqb. now rewrite SFcompare_refl_finite.
  - now rewrite String.eqb_refl.
Qed.

Lemma contains_CStr (s : string) (values : list cell) :
  existsb (py_eq (CStr s)) values = true <-> In (CStr s) values.
Proof.
  rewrite existsb_exists. split.
  - intros (v & Hv & H). apply py_eq_CStr_l in H. now subst.
  - intros H. exists (CStr s). split; [assumption | now apply py_eq_CStr_l].
Qed.

(** What [float] makes of the tokens of the sheet and of a few literals. *)
Example float_of_tokens :
  map float_of_string [ "xxx"; ". ."; "2020 Current"; ""; "inf"; "-Infinity"; " nan " ]
  = [ None; None; None; None; Some infinity; Some neg_infinity; Some nan ]
  /\ map float_of_string [ "0.5"; "1e3"; "1_000"; "1." ]
     = [ Some (S754_finite false 4503599627370496 (-53));
         Some (round_Z 1000); Some (round_Z 1000); Some (round_Z 1) ].
Proof. split; reflexivity. Qed.

Lemma fsub_nan_r (x : float) : fsub x nan = nan.
Proof. now destruct x. Qed.

Lemma fsub_nan_l (x : float) : fsub nan x = nan.
Proof. reflexivity. Qed.

(** ** [mapM] *)

Lemma mapM_Forall2 {A B : Type} (f : A -> result B) (l : list A) (l' : list B) :
  mapM f l = Ok l' -> Forall2 (fun a b => f a = Ok b) l l'.
Proof.
  revert l'. induction l as [|a l IH]; simpl; intros l' H.
  - injection H as <-. constructor.
  - destruct (f a) as [b|e] eqn:Ha; simpl in H; [|discriminate].
    destruct (mapM f l) as [bs|e] eqn:Hl; simpl in H; [|discriminate].
    injection H as <-. constructor; auto.
Qed.

Lemma Forall2_mapM {A B : Type} (f : A -> result B) (l : list A) (l' : list B) :
  Forall2 (fun a b => f a = Ok b) l l' -> mapM f l = Ok l'.
Proof.
  induction 1 as [|a b l l' Hab _ IH]; simpl.
  - reflexivity.
  - now rewrite Hab, IH.
Qed.


Lemma mapM_Raise {A B : Type} (f : A -> result B) (l : list A) (e : pyexc) :
  mapM f l = Raise e -> exists a, In a l /\ f a = Raise e.
Proof.
  induction l as [|a l IH]; simpl; intros H; [discriminate|].
  destruct (f a) as [b|e'] eqn:Ha; simpl in H.
  - destruct (mapM f l) as [bs|e'] eqn:Hl; simpl in H; [discriminate|].
    injection H as ->. destruct IH as (a' & Hin & Ha'); [reflexivity|].
    exists a'. auto.
  - injection H as ->. exists a. auto.
Qed.

Lemma Forall2_In_r {A B : Type} (R : A -> B -> Prop) (l : list A) (l' : list B) (b : B) :
  Forall2 R l l' -> In b l' -> exists a, In a l /\ R a b.
Proof.
  induction 1 as [|a0 b0 l l' Hab _ IH]; simpl; intros Hin; [contradiction|].
  destruct Hin as [<-|Hin].
  - exists a0. auto.
  - destruct (IH Hin) as (a & Ha & HR). exists a. auto.
Qed.

Lemma Forall2_In_l {A B : Type} (R : A -> B -> Prop) (l : list A) (l' : list B) (a : A) :
  Forall2 R l l' -> In a l -> exists b, In b l' /\ R a b.
Proof.
  induction 1 as [|a0 b0 l l' Hab _ IH]; simpl; intros Hin; [contradiction|].
  destruct Hin as [<-|Hin].
  - exists b0. auto.
  - destruct (IH Hin) as (b & Hb & HR). exists b. auto.
Qed.

End PyFacts.

(* ===================================================================== *)
(** * Facts about class Sheet                                             *)
(* ===================================================================== *)

Module SheetFacts.
Import Py Sheet PyFacts.

(** ** Relating lists row by row *)

Lemma Forall2_compose {A B C : Type} (R : A -> B -> Prop) (S : B -> C -> Prop)
    (l : list A) (m : list B) (n : list C) :
  Forall2 R l m -> Forall2 S m n ->
  Forall2 (fun a c => exists b, R a b /\ S b c) l n.
Proof.
  intros H. revert n. induction H as [|a b l m Hab _ IH]; intros n Hn.
  - inversion Hn. constructor.
  - inversion Hn as [|b' c m' n' Hbc Hrest]; subst.
    constructor; [exists b; auto | auto].
Qed.

Lemma Forall2_weaken {A B : Type} (R S : A -> B -> Prop) (l : list A) (m : list B) :
  (forall a b, R a b -> S a b) -> Forall2 R l m -> Forall2 S l m.
Proof. intros HRS. induction 1; constructor; auto. Qed.

Lemma Forall2_map_graph {A B : Type} (g : A -> B) (l : list A) :
  Forall2 (fun a b => b = g a) l (map g l).
Proof. induction l; simpl; constructor; auto. Qed.

Lemma Forall2_maps {A B K : Type} (f : A -> K) (g : B -> K) (l : list A) (m : list B) :
  Forall2 (fun a b => f a = g b) l m -> map f l = map g m.
Proof. induction 1; simpl; congruence. Qed.

(** ** The steps of [get_df] *)

Lemma dropna_In (df : list (row cell cell)) (r : row cell cell) :
  In r (dropna df) -> In r df.
Proof. unfold dropna. intros H. now apply filter_In in H. Qed.

Lemma remove_dead_countries_In (df : list (row cell cell)) (r : row cell cell) :
  In r (remove_dead_countries df) <->
  In r df /\ isin (Location r) (living_countries df) = true.
Proof. unfold remove_dead_countries. apply filter_In. Qed.

Lemma living_countries_In (df : list (row cell cell)) (c : cell) :
  In c (living_countries df) <->
  exists r, In r df /\ Location r = c /\ py_eq (Year r) (CInt 2020) = true
            /\ Budget r <> CStr "xxx".
Proof.
  unfold living_countries. rewrite in_map_iff. split.
  - intros (r & Hc & Hr). apply filter_In in Hr. destruct Hr as (Hin & Hb).
    apply andb_true_iff in Hb. destruct Hb as (Hy & Hx).
    exists r. repeat split; auto. intros Heq. unfold py_ne in Hx.
    apply negb_true_iff in Hx. rewrite Heq in Hx.
    now rewrite (proj2 (py_eq_CStr_l "xxx" (CStr "xxx")) eq_refl) in Hx.
  - intros (r & Hin & Hc & Hy & Hx). exists r. split; [assumption|].
    apply filter_In. split; [assumption|]. rewrite Hy. simpl.
    unfold py_ne. apply negb_true_iff.
    destruct (py_eq (Budget r) (CStr "xxx")) eqn:E; [|reflexivity].
    apply py_eq_CStr_r in E. contradiction.
Qed.

Lemma fix_budget_rows (df : list (row cell cell)) (df' : list (row cell float)) :
  fix_budget df = Ok df' ->
  Forall2 coerced (remove_dead_countries (dropna df)) df'.
Proof.
  unfold fix_budget. intros H. apply mapM_Forall2 in H.
  eapply Forall2_weaken; [|exact H].
  intros r r' Hr. simpl in Hr.
  destruct (clean_budget (Budget r)) as [v|e] eqn:Hv; simpl in Hr; [|discriminate].
  injection Hr as <-. unfold coerced. simpl. eauto.
Qed.


(** ** The downcast *)

Lemma integer_years_rows (df : list (row num float)) (rows : list (row Z float)) :
  integer_years df = Some rows ->
  Forall2 (fun r r' => Year r = NInt (Year r')
                       /\ Location r' = Location r /\ Budget r' = Budget r) df rows.
Proof.
  revert rows. induction df as [|r df IH]; simpl; intros rows H.
  - injection H as <-. constructor.
  - destruct (Year r) as [z|x] eqn:Hz; [|discriminate].
    destruct (integer_years df) as [rows'|]; [|discriminate].
    injection H as <-. constructor; auto.
Qed.

Lemma downcast_years_rows (df : list (row num float)) (rows : list (row Z float)) :
  downcast_years df = Some rows ->
  Forall2 (fun r r' => float_downcast (num_float (Year r)) = Some (Year r')
                       /\ Location r' = Location r /\ Budget r' = Budget r) df rows.
Proof.
  revert rows. induction df as [|r df IH]; simpl; intros rows H.
  - injection H as <-. constructor.
  - destruct (float_downcast (num_float (Year r))) as [z|] eqn:Hz; [|discriminate].
    destruct (downcast_years df) as [rows'|]; [|discriminate].
    injection H as <-. constructor; auto.
Qed.


(** The years of an integer column, beside the numbers read. *)
Lemma downcast_integer_rows (df : list (row num float)) (rows : list (row Z float)) :
  downcast_integer df = IntYears rows ->
  Forall2 (fun r r' => downcast_to (Year r) (Year r')
                       /\ Location r' = Location r /\ Budget r' = Budget r) df rows.
Proof.
  unfold downcast_integer.
  destruct (integer_years df) as [rows1|] eqn:Hi.
  - intros [= <-]. apply integer_years_rows in Hi.
    eapply Forall2_weaken; [|exact Hi].
    intros r r' (Hy & Hl & Hb). repeat split; auto. now left.
  - destruct (downcast_years df) as [rows2|] eqn:Hd; [|discriminate].
    intros [= <-]. apply downcast_years_rows in Hd.
    eapply Forall2_weaken; [|exact Hd].
    intros r r' (Hy & Hl & Hb). repeat split; auto. now right.
Qed.

Lemma num_integer_downcast (n : num) (z : Z) :
  num_integer n = Some z -> float_downcast (num_float n) = Some z.
Proof.
  destruct n as [z0|x]; simpl; [|auto].
  destruct (float_downcast (round_Z z0)) as [z'|]; [|discriminate].
  destruct (z' =? z0) eqn:E; [|discriminate].
  apply Z.eqb_eq in E. intros [= <-]. now subst.
Qed.

(** A number that stands for an integer gives that integer as its year,
    whichever way the column was typed. *)
Lemma num_integer_year (n : num) (z y : Z) :
  num_integer n = Some z -> downcast_to n y -> y = z.
Proof.
  intros Hz [Hy|Hy].
  - subst n. simpl in Hz.
    destruct (float_downcast (round_Z y)) as [z'|]; [|discriminate].
    destruct (z' =? y); [|discriminate]. now injection Hz.
  - apply num_integer_downcast in Hz. congruence.
Qed.


Lemma within_atol_0 (e : Z) : within_atol 0 e = true.
Proof.
  unfold within_atol.
  replace atol with (S754_finite false 6044629098073146 (-79))
    by (vm_compute; reflexivity).
  unfold dyadic_leb. apply Z.leb_le. rewrite Z.mul_0_l.
  apply Z.mul_nonneg_nonneg; [lia | apply Z.pow_nonneg; lia].
Qed.

(** A float that equals an integer of 64 bits is downcast to it. *)
Lemma float_eq_Z_downcast (x : float) (z : Z) :
  float_eq_Z x z = true -> int64 z = true -> float_downcast x = Some z.
Proof.
  destruct x as [s|s| |s m e]; simpl; try discriminate.
  - intros H _. apply Z.eqb_eq in H. now subst.
  - destruct (0 <=? e) eqn:He.
    + intros H Hz. apply Z.eqb_eq in H. rewrite <- H, Hz. reflexivity.
    + intros H Hz. apply Z.eqb_eq in H. apply Z.leb_gt in He.
      assert (Hp : 0 < 2 ^ (- e)) by (apply Z.pow_pos_nonneg; lia).
      assert (Hm : Zpos m = (if s then - z else z) * 2 ^ (- e)).
      { destruct s; lia. }
      rewrite Hm, Z.mod_mul, Z.div_mul, within_atol_0 by lia. simpl.
      replace (if s then - (if s then - z else z) else if s then - z else z)
        with z by (destruct s; lia).
      now rewrite Hz.
Qed.

(** The downcast of a few floats: 2019.000000001 and 2020.0 become
    integers; 2019.5, 2018.999999999, a float beyond 64 bits, an infinity and
    NaN do not. *)
Example float_downcast_values :
  map float_downcast
    [ round_decimal false 2019000000001 (-9); round_Z 2020; Samples.mid_2019;
      round_decimal false 2018999999999 (-9); round_Z (2 ^ 63); infinity; nan ]
  = [ Some 2019; Some 2020; None; None; None; None; None ].
Proof. vm_compute. reflexivity. Qed.

(** ** The years of the returned frame *)

Lemma drop_2020_Current_In (df : list (row cell float)) (r : row cell float) :
  In r (drop_2020_Current df) <-> In r df /\ Year r <> CStr "2020 Current".
Proof.
  unfold drop_2020_Current. rewrite filter_In. unfold py_ne.
  rewrite negb_true_iff. split; intros (Hin & H); split; auto.
  - intros E. rewrite E in H. simpl in H. discriminate.
  - destruct (py_eq (Year r) (CStr "2020 Current")) eqn:E; [|reflexivity].
    apply py_eq_CStr_r in E. contradiction.
Qed.

Lemma drop_2020_Current_twice (df : list (row cell float)) :
  drop_2020_Current (drop_2020_Current df) = drop_2020_Current df.
Proof.
  unfold drop_2020_Current. induction df as [|r df IH]; simpl; [reflexivity|].
  destruct (py_ne (Year r) (CStr "2020 Current")) eqn:E; simpl; [rewrite E|];
    now rewrite IH.
Qed.

(** ** The survivorship filter *)

Lemma dead_country_removed (df : list (row cell cell)) (name : string) :
  (forall r, In r df -> Location r = CStr name ->
             py_eq (Year r) (CInt 2020) = true -> Budget r = CStr "xxx") ->
  forall r, In r (remove_dead_countries df) -> Location r <> CStr name.
Proof.
  intros Hdead r Hr Hname. apply remove_dead_countries_In in Hr.
  destruct Hr as (_ & Hin). rewrite Hname in Hin. apply isin_CStr in Hin.
  apply living_countries_In in Hin.
  destruct Hin as (r0 & Hr0 & Hl & Hy & Hx). apply Hx. now apply Hdead.
Qed.

(** Conversely, a country with a 2020 row whose budget is not the token
    keeps all its rows. *)
Lemma living_country_kept (df : list (row cell cell)) (name : string) :
  (exists r, In r df /\ Location r = CStr name
             /\ py_eq (Year r) (CInt 2020) = true /\ Budget r <> CStr "xxx") ->
  forall r, In r df -> Location r = CStr name -> In r (remove_dead_countries df).
Proof.
  intros Hlive r Hr Hname. apply remove_dead_countries_In. split; [assumption|].
  rewrite Hname. apply isin_CStr. now apply living_countries_In.
Qed.

Example melt_tab :
  melt Samples.tab =
  [ mk_row (CInt 2019) (CStr "A") (CFloat (Samples.flt 5));
    mk_row (CInt 2020) (CStr "A") (CStr "xxx");
    mk_row (CStr "2020 Current") (CStr "A") (CStr "xxx");
    mk_row (CInt 2019) (CStr "B") (CStr ". .");
    mk_row (CInt 2020) (CStr "B") (CInt 7);
    mk_row (CStr "2020 Current") (CStr "B") (CInt 9) ].
Proof. reflexivity. Qed.

(** ** The coercion of budgets *)

Lemma clean_budget_raises (item : cell) (e : pyexc) :
  clean_budget item = Raise e ->
  e = OverflowError /\ exists z sgn, item = CInt z /\ round_Z z = S754_infinity sgn.
Proof.
  unfold clean_budget. destruct item as [z|x|s]; simpl.
  - destruct (round_Z z) as [b|b| |b m k] eqn:Hz; simpl; try discriminate.
    intros [= <-]. split; [reflexivity|]. now exists z, b.
  - destruct (isnan x); discriminate.
  - destruct (float_of_string s) as [x|]; [|discriminate].
    destruct (isnan x); discriminate.
Qed.

Lemma clean_budget_not_nan (item : cell) (x : float) :
  clean_budget item = Ok (Some x) -> isnan x = false.
Proof.
  unfold clean_budget. destruct (py_float item) as [y|e].
  - destruct (isnan y) eqn:Hy; [discriminate|]. now intros [= <-].
  - destruct e; discriminate.
Qed.

Lemma clean_budget_malformed (s : string) :
  float_of_string s = None -> clean_budget (CStr s) = Ok None.
Proof. intros H. unfold clean_budget. simpl. now rewrite H. Qed.

Section Reading.

(** What pandas reads in the labels that [to_numeric] leaves open: the
    facts below hold whatever it is. *)
Variable reads : cell -> result num.

Lemma fix_year_rows (df : list (row cell float)) (fr : frame) :
  fix_year reads df = Ok fr -> rows_of reads (drop_2020_Current df) fr.
Proof.
  unfold fix_year.
  destruct (mapM _ (drop_2020_Current df)) as [nums|e] eqn:Hm; simpl; [|discriminate].
  intros [= <-]. apply mapM_Forall2 in Hm.
  destruct (downcast_integer nums) as [rows|rows] eqn:Hd; simpl.
  - apply downcast_integer_rows in Hd.
    eapply Forall2_weaken; [|exact (Forall2_compose _ _ _ _ _ Hm Hd)].
    intros r r' (n & Hn & Hz & Hl & Hb). simpl in Hn.
    destruct (to_numeric reads (Year r)) as [y|e]; simpl in Hn; [|discriminate].
    injection Hn as <-. simpl in *. repeat split; try congruence. now exists y.
  - unfold downcast_integer in Hd.
    destruct (integer_years nums); [discriminate|].
    destruct (downcast_years nums); [discriminate|]. injection Hd as <-.
    assert (Hg := Forall2_map_graph
                    (fun r => mk_row (num_float (Year r)) (Location r) (Budget r)) nums).
    eapply Forall2_weaken; [|exact (Forall2_compose _ _ _ _ _ Hm Hg)].
    intros r r' (n & Hn & ->). simpl in Hn.
    destruct (to_numeric reads (Year r)) as [y|e]; simpl in Hn; [|discriminate].
    injection Hn as <-. simpl. repeat split. now exists y.
Qed.

Lemma rows_of_locations (df : list (row cell float)) (fr : frame) :
  rows_of reads df fr -> locations fr = map Location df.
Proof.
  destruct fr as [rows|rows]; simpl; intros H; symmetry; apply Forall2_maps;
    (eapply Forall2_weaken; [|exact H]); intros r r' (_ & Hl & _); congruence.
Qed.

Lemma rows_of_budgets (df : list (row cell float)) (fr : frame) :
  rows_of reads df fr -> budgets fr = map Budget df.
Proof.
  destruct fr as [rows|rows]; simpl; intros H; symmetry; apply Forall2_maps;
    (eapply Forall2_weaken; [|exact H]); intros r r' (_ & _ & Hb); congruence.
Qed.

(** Every row of the frame [get_df] returns stems from a row that passed
    [dropna] and [remove_dead_countries]. *)
Lemma get_df_origin (df : wide) (fr : frame) :
  get_df reads df = Ok fr ->
  exists df', Forall2 coerced (remove_dead_countries (dropna (melt df))) df'
              /\ rows_of reads (drop_2020_Current df') fr.
Proof.
  unfold get_df.
  destruct (fix_budget (melt df)) as [df'|e] eqn:Hb; simpl; [|discriminate].
  intros Hy. exists df'. split.
  - now apply fix_budget_rows.
  - now apply fix_year_rows.
Qed.

(** C1.  A country whose every 2020 row (among the rows without a missing
    value) carries the token "xxx" as its budget, which includes a country
    with no such row at all, has no row after [remove_dead_countries] and no
    row in the frame [get_df] returns, whatever the year. *)
Theorem dead_countries_have_no_rows (df : wide) (name : string) :
  (forall r, In r (dropna (melt df)) -> Location r = CStr name ->
             py_eq (Year r) (CInt 2020) = true -> Budget r = CStr "xxx") ->
  (forall r, In r (remove_dead_countries (dropna (melt df))) ->
             Location r <> CStr name)
  /\ (forall fr, get_df reads df = Ok fr -> ~ In (CStr name) (locations fr)).
Proof.
  intros Hdead.
  assert (Hrm := dead_country_removed (dropna (melt df)) name Hdead).
  split; [exact Hrm|].
  intros fr Hfr Hin. apply get_df_origin in Hfr.
  destruct Hfr as (df' & Hco & Hrows).
  rewrite (rows_of_locations _ _ Hrows) in Hin. apply in_map_iff in Hin.
  destruct Hin as (r' & Hl & Hr'). apply filter_In in Hr'. destruct Hr' as (Hr' & _).
  destruct (Forall2_In_r _ _ _ _ Hco Hr') as (r & Hr & _ & Hloc & _).
  apply (Hrm r Hr). congruence.
Qed.

(** C3, as the code has it.  [clean_budget] raises for no text and no float;
    an integer raises, with [OverflowError], only when it is beyond the
    range of a float.  A text that is no float literal becomes [None], the
    absent budget, and so do the token "xxx" and every NaN; a budget that is
    returned is never NaN, but it may be infinite.  The [float64] column of
    the frame [get_df] returns holds the result of [clean_budget] on a cell of
    the sheet, with NaN (the missing value of the column) exactly where the
    budget is absent. *)
Theorem budget_coercion (item : cell) (df : wide) :
  (forall e, clean_budget item = Raise e ->
     e = OverflowError /\ exists z sgn, item = CInt z /\ round_Z z = S754_infinity sgn)
  /\ (forall s, item = CStr s -> float_of_string s = None -> clean_budget item = Ok None)
  /\ clean_budget (CStr "xxx") = Ok None
  /\ clean_budget (CFloat nan) = Ok None
  /\ (forall x, clean_budget item = Ok (Some x) -> isnan x = false)
  /\ (forall fr b, get_df reads df = Ok fr -> In b (budgets fr) ->
        exists r v, In r (melt df) /\ clean_budget (Budget r) = Ok v
                    /\ b = astype_float64 v /\ (isnan b = true <-> v = None)).
Proof.
  split; [apply clean_budget_raises|].
  split; [intros s -> Hs; now apply clean_budget_malformed|].
  split; [reflexivity|]. split; [reflexivity|].
  split; [apply clean_budget_not_nan|].
  intros fr b Hfr Hb. apply get_df_origin in Hfr.
  destruct Hfr as (df' & Hco & Hrows).
  rewrite (rows_of_budgets _ _ Hrows) in Hb. apply in_map_iff in Hb.
  destruct Hb as (r' & <- & Hr'). apply filter_In in Hr'. destruct Hr' as (Hr' & _).
  destruct (Forall2_In_r _ _ _ _ Hco Hr') as (r & Hr & _ & _ & v & Hv & Hbv).
  exists r, v. split.
  - apply dropna_In. now apply remove_dead_countries_In in Hr.
  - split; [assumption|]. split; [assumption|]. rewrite Hbv.
    destruct v as [x|]; simpl.
    + rewrite (clean_budget_not_nan _ _ Hv). split; discriminate.
    + split; reflexivity.
Qed.

(** ** The year labels *)

Lemma year_integer_numeric (label : cell) (z : Z) :
  year_integer reads label = Some z ->
  exists n, to_numeric reads label = Ok n /\ num_integer n = Some z.
Proof.
  unfold year_integer. destruct (to_numeric reads label) as [n|e]; [|discriminate].
  intros H. now exists n.
Qed.



End Reading.

Lemma dead_countries_have_no_rows_witness :
  get_df Samples.reads_integers Samples.tab = Ok (IntYears Samples.normalized)
  /\ ~ In (CStr "A") (locations (IntYears Samples.normalized)).
Proof.
  split; [vm_compute; reflexivity|].
  apply (dead_countries_have_no_rows Samples.reads_integers Samples.tab "A").
  - intros r Hin Hl Hy. vm_compute in Hin.
    repeat (destruct Hin as [<-|Hin];
            [first [reflexivity | discriminate Hl | discriminate Hy]|]).
    contradiction.
  - vm_compute; reflexivity.
Defined.

Lemma budget_coercion_witness :
  clean_budget (CStr ". .") = Ok None
  /\ isnan (astype_float64 (Some (Samples.flt 7))) = false
  /\ exists r v, In r (melt Samples.tab) /\ clean_budget (Budget r) = Ok v
                 /\ nan = astype_float64 v /\ (isnan nan = true <-> v = None).
Proof.
  destruct (budget_coercion Samples.reads_integers (CStr ". .") Samples.tab)
    as (_ & Hbad & _ & _ & _ & Htable).
  split; [apply (Hbad ". ."); reflexivity|].
  split; [vm_compute; reflexivity|].
  apply (Htable (IntYears Samples.normalized) nan).
  - vm_compute; reflexivity.
  - simpl. left. reflexivity.
Defined.

(** C3 as stated fails: the text "inf" is a float literal, so its budget is
    the float +infinity, which is neither finite nor absent, and it reaches
    the frame; and an integer beyond the range of a float makes [float]
    raise [OverflowError], which [clean_budget] does not catch. *)
Lemma budget_coercion_counterexample :
  clean_budget (CStr "inf") = Ok (Some infinity)
  /\ isfinite infinity = false
  /\ get_df Samples.reads_integers (mk_wide [CInt 2020] [(CStr "A", [CStr "inf"])])
     = Ok (IntYears [mk_row 2020 (CStr "A") infinity])
  /\ clean_budget (CInt (2 ^ 1024)) = Raise OverflowError.
Proof. repeat split; vm_compute; reflexivity. Qed.



End SheetFacts.

(* ===================================================================== *)
(** * Facts about class Sipri                                             *)
(* ===================================================================== *)

Module SipriFacts.
Import Py Sheet Sipri PyFacts.

(** ** Selection *)

Lemma select_df_cons (sheet : table) (names : list cell) (first : Z)
    (ticks : list Z) (last : Z) :
  select_df sheet names (first :: ticks) last =
  Ok (filter (fun r => (first <=? Year r) && (Year r <? last)
                       && isin (Location r) names) sheet).
Proof.
  unfold select_df. f_equal. apply filter_ext. intros r.
  now rewrite isin_Z_range.
Qed.

Lemma select_df_In (sheet : table) (names : list cell) (first : Z)
    (ticks : list Z) (last : Z) (out : table) :
  select_df sheet names (first :: ticks) last = Ok out ->
  forall r, In r out <->
    In r sheet /\ first <= Year r < last /\ isin (Location r) names = true.
Proof.
  rewrite select_df_cons. intros [= <-] r.
  rewrite filter_In, !andb_true_iff, Z.leb_le, Z.ltb_lt. tauto.
Qed.

(** C6.  With a tick list that starts with [first], [__select_df] returns
    the rows of the sheet, in their order, whose year [y] satisfies
    [first <= y < last_year] and whose location is among the given names:
    the upper bound is excluded. *)
Theorem select_df_rows (sheet : table) (names : list cell) (first : Z)
    (ticks : list Z) (last : Z) :
  exists out,
    select_df sheet names (first :: ticks) last = Ok out
    /\ out = filter (fun r => (first <=? Year r) && (Year r <? last)
                              && isin (Location r) names) sheet
    /\ (forall r, In r out <->
          In r sheet /\ first <= Year r < last /\ isin (Location r) names = true)
    /\ (forall r, In r out -> Year r <> last).
Proof.
  eexists. split; [apply select_df_cons|]. split; [reflexivity|].
  assert (H := select_df_In sheet names first ticks last _
                 (select_df_cons sheet names first ticks last)).
  split; [exact H|]. intros r Hr. apply H in Hr. lia.
Qed.

(** C7.  When the names list every location of the table and the range
    [first .. last_year - 1] covers every year of the table, the selection
    is the whole table, so it has as many rows. *)
Theorem select_df_everything (sheet : table) (names : list cell) (first : Z)
    (ticks : list Z) (last : Z) :
  (forall r, In r sheet -> In (Location r) names) ->
  (forall r, In r sheet -> first <= Year r < last) ->
  select_df sheet names (first :: ticks) last = Ok sheet
  /\ exists out, select_df sheet names (first :: ticks) last = Ok out
                 /\ List.length out = List.length sheet.
Proof.
  intros Hnames Hyears.
  assert (H : select_df sheet names (first :: ticks) last = Ok sheet).
  { rewrite select_df_cons. f_equal. apply forallb_filter_id.
    apply forallb_forall. intros r Hr.
    rewrite (isin_In _ _ (Hnames r Hr)), andb_true_r.
    apply andb_true_iff. rewrite Z.leb_le, Z.ltb_lt. now apply Hyears. }
  split; [exact H|]. now exists sheet.
Qed.

Lemma select_df_everything_witness :
  select_df Samples.regions (map Location Samples.regions) [2018; 2020] 2021
  = Ok Samples.regions
  /\ exists out,
       select_df Samples.regions (map Location Samples.regions) [2018; 2020] 2021 = Ok out
       /\ List.length out = List.length Samples.regions.
Proof.
  apply (select_df_everything Samples.regions (map Location Samples.regions)
           2018 [2020] 2021).
  - intros r Hr. now apply in_map.
  - intros r Hr. simpl in Hr.
    repeat (destruct Hr as [<-|Hr]; [simpl; lia|]). contradiction.
Defined.

(** ** Permutations by rank *)

Lemma insert_ranked_perm {A : Type} (k : Z) (a : A) (l : list (Z * A)) :
  Permutation (insert_ranked k a l) ((k, a) :: l).
Proof.
  induction l as [|p l IH]; simpl; [reflexivity|].
  destruct (k <? fst p); [reflexivity|].
  rewrite IH. apply perm_swap.
Qed.

Lemma combine_seq_snd {A : Type} (l : list A) (start : nat) :
  map snd (combine (seq start (List.length l)) l) = l.
Proof.
  revert start. induction l as [|a l IH]; intros start; simpl; [reflexivity|].
  now rewrite IH.
Qed.

(** Arranging a list by rank permutes it. *)
Lemma arrange_perm {A : Type} (rank : nat -> Z) (l : list A) :
  Permutation (arrange rank l) l.
Proof.
  unfold arrange.
  assert (H : forall c : list (nat * A),
            Permutation
              (map snd (fold_right (fun ia acc =>
                                      insert_ranked (rank (fst ia)) (snd ia) acc) [] c))
              (map snd c)).
  { induction c as [|ia c IH]; simpl; [reflexivity|].
    rewrite (Permutation_map snd (insert_ranked_perm _ _ _)). simpl.
    now apply perm_skip. }
  rewrite H. now rewrite combine_seq_snd.
Qed.

Lemma arrange_In {A : Type} (rank : nat -> Z) (l : list A) (a : A) :
  In a (arrange rank l) <-> In a l.
Proof.
  split; apply Permutation_in.
  - apply arrange_perm.
  - symmetry. apply arrange_perm.
Qed.

(** ** Indexes and frames *)

Lemma years_equal_eq (l r : list Z) : years_equal l r = true <-> l = r.
Proof.
  revert r. induction l as [|x l IH]; intros [|y r]; simpl; split;
    try discriminate; try reflexivity.
  - intros H. apply andb_true_iff in H. destruct H as (Hxy & Hlr).
    apply Z.eqb_eq in Hxy. apply IH in Hlr. congruence.
  - intros [= -> ->]. rewrite Z.eqb_refl. now apply IH.
Qed.

Lemma insert_year_In (x y : Z) (l : list Z) :
  In y (insert_year x l) <-> y = x \/ In y l.
Proof.
  induction l as [|z l IH]; simpl.
  - intuition.
  - destruct (x <? z); [simpl; intuition|].
    destruct (x =? z) eqn:E.
    + apply Z.eqb_eq in E. subst. simpl. intuition.
    + simpl. rewrite IH. intuition.
Qed.

Lemma union_years_In (y : Z) (l r : list Z) :
  In y (union_years l r) <-> In y l \/ In y r.
Proof.
  unfold union_years. rewrite <- in_app_iff.
  induction (l ++ r) as [|x m IH]; simpl; [tauto|].
  rewrite insert_year_In, IH. intuition.
Qed.

Lemma values_at_In (y : Z) (v : float) (s : series) :
  In (y, v) s -> In v (values_at y s).
Proof.
  intros H. unfold values_at.
  assert (Hv : In v (map snd (filter (fun p => fst p =? y) s))).
  { apply in_map_iff. exists (y, v). split; [reflexivity|].
    apply filter_In. split; [assumption | apply Z.eqb_refl]. }
  destruct (map snd (filter (fun p => fst p =? y) s)); [contradiction | assumption].
Qed.

Lemma values_at_missing (y : Z) (s : series) :
  ~ In y (map fst s) -> values_at y s = [nan].
Proof.
  intros H. unfold values_at.
  replace (filter (fun p => fst p =? y) s) with (@nil (Z * float)); [reflexivity|].
  symmetry. induction s as [|p s IH]; simpl; [reflexivity|].
  destruct (fst p =? y) eqn:E.
  - apply Z.eqb_eq in E. contradiction H. simpl. now left.
  - apply IH. intros Hin. apply H. simpl. now right.
Qed.

Lemma In_years (y : Z) (s : series) :
  In y (map fst s) <-> exists v, In (y, v) s.
Proof.
  rewrite in_map_iff. split.
  - intros ((y', v) & <- & H). now exists v.
  - intros (v & H). now exists (y, v).
Qed.

(** With equal indexes, every label names a pair of rows that face each
    other. *)
Lemma combine_same_years (lhs rhs : series) (y : Z) :
  map fst lhs = map fst rhs -> In y (map fst lhs) ->
  exists a b, In (y, a) lhs /\ In (y, b) rhs /\ In ((y, a), (y, b)) (combine lhs rhs).
Proof.
  revert rhs. induction lhs as [|(x, a) lhs IH]; intros [|(x', b) rhs]; simpl;
    try discriminate; try contradiction.
  intros [= <- Heq] [<-|Hin].
  - exists a, b. auto.
  - destruct (IH rhs Heq Hin) as (a' & b' & Ha & Hb & Hab).
    exists a', b'. auto.
Qed.

Lemma combine_distinct_years (lhs rhs : series) (y : Z) (a b : float) :
  map fst lhs = map fst rhs -> NoDup (map fst lhs) ->
  In (y, a) lhs -> In (y, b) rhs -> In ((y, a), (y, b)) (combine lhs rhs).
Proof.
  revert rhs. induction lhs as [|(x, a') lhs IH]; intros [|(x', b') rhs]; simpl;
    try discriminate; try contradiction.
  intros [= <- Heq] Hnd Ha Hb. inversion Hnd as [|? ? Hx Hnd']; subst.
  destruct Ha as [Ha|Ha]; destruct Hb as [Hb|Hb].
  - left. congruence.
  - contradiction Hx. rewrite Heq. apply In_years. exists b. congruence.
  - contradiction Hx. apply In_years. exists a. congruence.
  - right. now apply IH.
Qed.

Lemma is_americas_spec (r : row Z float) :
  is_americas r = true <-> Location r = CStr "Americas".
Proof. apply py_eq_CStr_r. Qed.

Lemma by_year_In (y : Z) (v : float) (df : table) :
  In (y, v) (by_year df) <-> exists r, In r df /\ Year r = y /\ Budget r = v.
Proof.
  unfold by_year. rewrite in_map_iff. split.
  - intros (r & [= <- <-] & Hr). now exists r.
  - intros (r & Hr & <- & <-). now exists r.
Qed.

Lemma by_year_years (df : table) : map fst (by_year df) = map Year df.
Proof. unfold by_year. now rewrite map_map. Qed.

Lemma transform_In (r' : row Z float) (df : table) :
  In r' (transform_country_to_regional df) <->
  exists r, In r df
            /\ r' = mk_row (Year r) (Location r) (fdiv (Budget r) (round_Z 1000)).
Proof.
  unfold transform_country_to_regional. rewrite in_map_iff. split.
  - intros (r & <- & Hr). now exists r.
  - intros (r & Hr & ->). now exists r.
Qed.

Lemma transform_years (df : table) :
  map Year (transform_country_to_regional df) = map Year df.
Proof. unfold transform_country_to_regional. now rewrite map_map. Qed.

Lemma isin_USA (c : cell) : isin c [CStr "USA"] = true -> c = CStr "USA".
Proof.
  unfold isin. simpl. rewrite orb_false_r, andb_false_r, orb_false_r.
  apply py_eq_CStr_r.
Qed.

Section Aligned.

(** The order pandas gives to the rows of an outer join: the facts below
    hold whatever it is. *)
Variable join_order : list Z -> list Z -> nat -> Z.

(** C10.  On an empty tick list [__select_df] raises the [IndexError] of
    [tick_year_list[0]], and so does the merge, which selects first; a
    non-empty tick list is what it takes for [__select_df] to return. *)
Theorem select_df_needs_ticks (self : sipri) (sheet : table) (names : list cell)
    (last : Z) :
  select_df sheet names [] last = Raise IndexError
  /\ merge_USA_into_regional join_order self names [] = Raise IndexError
  /\ (forall ticks, (exists out, select_df sheet names ticks last = Ok out)
                    <-> ticks <> []).
Proof.
  split; [reflexivity|]. split; [reflexivity|].
  intros [|first ticks]; split.
  - intros (out & H). discriminate H.
  - intros H. now contradiction H.
  - discriminate.
  - intros _. eexists. apply select_df_cons.
Qed.

(** ** The aligned subtraction *)

Lemma subtract_aligned_joined (lhs rhs : series) (y : Z) (a b : float) :
  years_equal (map fst lhs) (map fst rhs) = false ->
  (In y (map fst lhs) \/ In y (map fst rhs)) ->
  In a (values_at y lhs) -> In b (values_at y rhs) ->
  In (y, fsub a b) (subtract_aligned join_order lhs rhs).
Proof.
  intros Hne Hy Ha Hb. unfold subtract_aligned. rewrite Hne.
  apply arrange_In.
  apply in_flat_map. exists y. split; [now apply union_years_In|].
  apply in_flat_map. exists a. split; [assumption|].
  apply in_map_iff. now exists b.
Qed.

(** A year both sides have gives a row with the difference of two of their
    values at that year. *)
Lemma subtract_aligned_shared (lhs rhs : series) (y : Z) :
  In y (map fst lhs) -> In y (map fst rhs) ->
  exists a b, In (y, a) lhs /\ In (y, b) rhs
              /\ In (y, fsub a b) (subtract_aligned join_order lhs rhs).
Proof.
  intros Hl Hr.
  destruct (years_equal (map fst lhs) (map fst rhs)) eqn:E.
  - apply years_equal_eq in E.
    destruct (combine_same_years lhs rhs y E Hl) as (a & b & Ha & Hb & Hab).
    exists a, b. split; [assumption|]. split; [assumption|].
    unfold subtract_aligned. rewrite (proj2 (years_equal_eq _ _) E).
    apply in_map_iff. now exists ((y, a), (y, b)).
  - apply In_years in Hl. destruct Hl as (a & Ha).
    apply In_years in Hr. destruct Hr as (b & Hb).
    exists a, b. split; [assumption|]. split; [assumption|].
    apply subtract_aligned_joined; auto using values_at_In.
    left. apply In_years. now exists a.
Qed.

(** When the left side has each year once, the difference is that of the
    two values at the year. *)
Lemma subtract_aligned_values (lhs rhs : series) (y : Z) (a b : float) :
  NoDup (map fst lhs) -> In (y, a) lhs -> In (y, b) rhs ->
  In (y, fsub a b) (subtract_aligned join_order lhs rhs).
Proof.
  intros Hnd Ha Hb.
  destruct (years_equal (map fst lhs) (map fst rhs)) eqn:E.
  - apply years_equal_eq in E.
    unfold subtract_aligned. rewrite (proj2 (years_equal_eq _ _) E).
    apply in_map_iff. exists ((y, a), (y, b)). split; [reflexivity|].
    now apply combine_distinct_years.
  - apply subtract_aligned_joined; auto using values_at_In.
    left. apply In_years. now exists a.
Qed.

(** A year only one side has gives a row without a value. *)
Lemma subtract_aligned_one_sided (lhs rhs : series) (y : Z) :
  (In y (map fst lhs) /\ ~ In y (map fst rhs))
  \/ (~ In y (map fst lhs) /\ In y (map fst rhs)) ->
  In (y, nan) (subtract_aligned join_order lhs rhs).
Proof.
  intros H.
  assert (Hne : years_equal (map fst lhs) (map fst rhs) = false).
  { destruct (years_equal (map fst lhs) (map fst rhs)) eqn:E; [|reflexivity].
    apply years_equal_eq in E. rewrite E in H. tauto. }
  destruct H as [(Hl & Hr)|(Hl & Hr)].
  - apply In_years in Hl. destruct Hl as (a & Ha).
    rewrite <- (fsub_nan_r a). apply subtract_aligned_joined.
    + exact Hne.
    + left. apply In_years. now exists a.
    + now apply values_at_In.
    + rewrite (values_at_missing _ _ Hr). now left.
  - apply In_years in Hr. destruct Hr as (b & Hb).
    rewrite <- (fsub_nan_l b). apply subtract_aligned_joined.
    + exact Hne.
    + right. apply In_years. now exists b.
    + rewrite (values_at_missing _ _ Hl). now left.
    + now apply values_at_In.
Qed.

(** ** The merge of the regions with the USA *)

Lemma merge_unfold (self : sipri) (region_names : list cell) (ticks : list Z)
    (region_df usa_df : table) :
  select_df (regional_totals self) region_names ticks default_last_year = Ok region_df ->
  select_df (constant_USD self) [CStr "USA"] ticks default_last_year = Ok usa_df ->
  merge_USA_into_regional join_order self region_names ticks =
  Ok ((if contains (CStr "Americas") region_names
       then subtract_usa_from_americas join_order region_df
              (transform_country_to_regional usa_df)
       else region_df) ++ transform_country_to_regional usa_df).
Proof. intros Hr Hu. unfold merge_USA_into_regional. now rewrite Hr, Hu. Qed.

(** The rows "Americas minus US" of the merge are those of the aligned
    subtraction. *)
Lemma minus_US_row (region_df usa_df : table) (y : Z) (v : float) :
  In (y, v) (subtract_aligned join_order (by_year (filter is_americas region_df))
                              (by_year usa_df)) ->
  In (mk_row y (CStr "Americas minus US") v)
     (subtract_usa_from_americas join_order region_df usa_df ++ usa_df).
Proof.
  intros H. apply in_or_app. left. unfold subtract_usa_from_americas.
  apply in_or_app. right. apply in_map_iff. now exists (y, v).
Qed.

(** C2.  With "Americas" among the region names and a tick list that starts
    with [first], the merge returns a frame in which every year that the
    selected rows of Americas and the selected rows of the USA share has a
    row "Americas minus US" whose budget is a budget of Americas at that
    year minus a budget of the USA at that year divided by 1000; when
    Americas has each year once, this holds for the budget of Americas at
    the year and every budget of the USA at the year; and no row of the
    frame is named "Americas". *)
Theorem americas_minus_US (self : sipri) (region_names : list cell) (first : Z)
    (ticks : list Z) :
  contains (CStr "Americas") region_names = true ->
  exists region_df usa_df out,
    select_df (regional_totals self) region_names (first :: ticks) default_last_year
      = Ok region_df
    /\ select_df (constant_USD self) [CStr "USA"] (first :: ticks) default_last_year
      = Ok usa_df
    /\ merge_USA_into_regional join_order self region_names (first :: ticks) = Ok out
    /\ (forall y, In y (map Year (filter is_americas region_df)) ->
                  In y (map Year usa_df) ->
          exists ra ru,
            In ra region_df /\ Location ra = CStr "Americas" /\ Year ra = y
            /\ In ru usa_df /\ Location ru = CStr "USA" /\ Year ru = y
            /\ In (mk_row y (CStr "Americas minus US")
                     (fsub (Budget ra) (fdiv (Budget ru) (round_Z 1000)))) out)
    /\ (NoDup (map Year (filter is_americas region_df)) ->
        forall ra ru,
          In ra region_df -> Location ra = CStr "Americas" ->
          In ru usa_df -> Year ru = Year ra ->
          In (mk_row (Year ra) (CStr "Americas minus US")
                (fsub (Budget ra) (fdiv (Budget ru) (round_Z 1000)))) out)
    /\ (forall r, In r out -> Location r <> CStr "Americas").
Proof.
  intros Hnames.
  assert (Hr := select_df_cons (regional_totals self) region_names first ticks
                  default_last_year).
  assert (Hu := select_df_cons (constant_USD self) [CStr "USA"] first ticks
                  default_last_year).
  assert (Husa := select_df_In _ _ _ _ _ _ Hu).
  revert Hr Hu Husa.
  generalize (filter (fun r => (first <=? Year r) && (Year r <? default_last_year)
                               && isin (Location r) region_names)
                     (regional_totals self)).
  generalize (filter (fun r => (first <=? Year r) && (Year r <? default_last_year)
                               && isin (Location r) [CStr "USA"])
                     (constant_USD self)).
  intros usa_df region_df Hr Hu Husa.
  exists region_df, usa_df. eexists.
  split; [exact Hr|]. split; [exact Hu|].
  split; [rewrite (merge_unfold _ _ _ _ _ Hr Hu), Hnames; reflexivity|].
  assert (HUSA : forall ru, In ru usa_df -> Location ru = CStr "USA").
  { intros ru Hru. apply Husa in Hru. apply isin_USA. tauto. }
  split; [|split].
  - intros y Hya Hyu.
    destruct (subtract_aligned_shared
                (by_year (filter is_americas region_df))
                (by_year (transform_country_to_regional usa_df)) y)
      as (a & b & Ha & Hb & Hab).
    + now rewrite by_year_years.
    + now rewrite by_year_years, transform_years.
    + apply by_year_In in Ha. destruct Ha as (ra & Hra & Hy & <-).
      apply filter_In in Hra. destruct Hra as (Hra & Ham).
      apply by_year_In in Hb. destruct Hb as (r' & Hr' & Hy' & <-).
      apply transform_In in Hr'. destruct Hr' as (ru & Hru & ->). simpl in *.
      exists ra, ru. repeat split; auto.
      * now apply is_americas_spec.
      * now apply minus_US_row.
  - intros Hnd ra ru Hra Ham Hru Hy. apply minus_US_row.
    apply subtract_aligned_values.
    + now rewrite by_year_years.
    + apply by_year_In. exists ra. repeat split.
      apply filter_In. split; [assumption | now apply is_americas_spec].
    + apply by_year_In.
      exists (mk_row (Year ru) (Location ru) (fdiv (Budget ru) (round_Z 1000))).
      repeat split; [|assumption]. apply transform_In. now exists ru.
  - intros r Hin Hname. apply in_app_or in Hin. destruct Hin as [Hin|Hin].
    + unfold subtract_usa_from_americas in Hin. apply in_app_or in Hin.
      destruct Hin as [Hin|Hin].
      * apply filter_In in Hin. destruct Hin as (_ & Hin).
        apply negb_true_iff in Hin. apply is_americas_spec in Hname. congruence.
      * apply in_map_iff in Hin. destruct Hin as (p & <- & _). discriminate Hname.
    + apply transform_In in Hin. destruct Hin as (ru & Hru & ->). simpl in Hname.
      rewrite (HUSA ru Hru) in Hname. discriminate Hname.
Qed.

(** C9.  In the same setting, a year that only one of the two selections
    has still gets its row "Americas minus US", and the budget of that row
    is NaN, the missing value: the subtraction aligns on the union of the
    years. *)
Theorem years_of_one_side (self : sipri) (region_names : list cell)
    (first : Z) (ticks : list Z) :
  contains (CStr "Americas") region_names = true ->
  exists region_df usa_df out,
    select_df (regional_totals self) region_names (first :: ticks) default_last_year
      = Ok region_df
    /\ select_df (constant_USD self) [CStr "USA"] (first :: ticks) default_last_year
      = Ok usa_df
    /\ merge_USA_into_regional join_order self region_names (first :: ticks) = Ok out
    /\ forall y,
         (In y (map Year (filter is_americas region_df)) /\ ~ In y (map Year usa_df))
         \/ (~ In y (map Year (filter is_americas region_df))
             /\ In y (map Year usa_df)) ->
         In (mk_row y (CStr "Americas minus US") nan) out.
Proof.
  intros Hnames.
  assert (Hr := select_df_cons (regional_totals self) region_names first ticks
                  default_last_year).
  assert (Hu := select_df_cons (constant_USD self) [CStr "USA"] first ticks
                  default_last_year).
  revert Hr Hu.
  generalize (filter (fun r => (first <=? Year r) && (Year r <? default_last_year)
                               && isin (Location r) region_names)
                     (regional_totals self)).
  generalize (filter (fun r => (first <=? Year r) && (Year r <? default_last_year)
                               && isin (Location r) [CStr "USA"])
                     (constant_USD self)).
  intros usa_df region_df Hr Hu.
  exists region_df, usa_df. eexists.
  split; [exact Hr|]. split; [exact Hu|].
  split; [rewrite (merge_unfold _ _ _ _ _ Hr Hu), Hnames; reflexivity|].
  intros y Hy. apply minus_US_row. apply subtract_aligned_one_sided.
  now rewrite !by_year_years, transform_years.
Qed.

End Aligned.

Lemma americas_minus_US_witness :
  exists out,
    merge_USA_into_regional Samples.by_label Samples.dataset
      [CStr "Americas"; CStr "Europe"] [2018; 2020] = Ok out
    /\ In (mk_row 2019 (CStr "Americas minus US")
             (fsub (Samples.flt 1000) (fdiv (Samples.flt 700000) (round_Z 1000)))) out
    /\ forall r, In r out -> Location r <> CStr "Americas".
Proof.
  destruct (americas_minus_US Samples.by_label Samples.dataset
              [CStr "Americas"; CStr "Europe"] 2018 [2020] eq_refl)
    as (region_df & usa_df & out & Hr & Hu & Hm & _ & Hvalues & Hnone).
  exists out. split; [exact Hm|]. split; [|exact Hnone].
  vm_compute in Hr. injection Hr as <-.
  vm_compute in Hu. injection Hu as <-.
  apply (Hvalues
           ltac:(vm_compute; repeat constructor; simpl; intuition discriminate)
           (mk_row 2019 (CStr "Americas") (Samples.flt 1000))
           (mk_row 2019 (CStr "USA") (Samples.flt 700000))).
  - vm_compute. right. left. reflexivity.
  - reflexivity.
  - vm_compute. left. reflexivity.
  - reflexivity.
Defined.

Lemma years_of_one_side_witness :
  exists out,
    merge_USA_into_regional Samples.by_label Samples.dataset
      [CStr "Americas"; CStr "Europe"] [2018; 2020] = Ok out
    /\ In (mk_row 2018 (CStr "Americas minus US") nan) out.
Proof.
  destruct (years_of_one_side Samples.by_label Samples.dataset
              [CStr "Americas"; CStr "Europe"] 2018 [2020] eq_refl)
    as (region_df & usa_df & out & Hr & Hu & Hm & Hunion).
  exists out. split; [exact Hm|].
  vm_compute in Hr. injection Hr as <-.
  vm_compute in Hu. injection Hu as <-.
  apply Hunion. left. split.
  - vm_compute. left. reflexivity.
  - vm_compute. intuition discriminate.
Defined.

(** ** Country identifiers *)

Lemma getitem_alias (d : list (string * string)) (key : string) :
  match getitem d key with
  | Ok v => v
  | Raise _ => key
  end
  = match find (fun kv => String.eqb (fst kv) key) d with
    | Some kv => snd kv
    | None => key
    end.
Proof.
  induction d as [|(k, v) d IH]; simpl; [reflexivity|].
  destruct (String.eqb k key); [reflexivity | exact IH].
Qed.

Lemma map_country_name_spec (country_name : string) :
  map_country_name country_name = Spec.expand_Rep (Spec.alias country_name).
Proof.
  unfold map_country_name, Spec.expand_Rep, Spec.alias.
  now rewrite getitem_alias.
Qed.

(** The alias table is consulted with the name as given, and the
    substitution works on what the table returns: substituting first would
    miss the entry of "Congo, Dem. Rep.". *)
Example alias_then_substitution :
  map_country_name "Congo, Dem. Rep." = "Congo, The Democratic Republic of the"
  /\ Spec.alias (Spec.expand_Rep "Congo, Dem. Rep.") = "Congo, Dem. Republic"
  /\ map_country_name "Central African Rep." = "Central African Republic".
Proof. repeat split. Qed.

Section Resolution.

Variable country : Type.
Variable numeric : country -> string.
Variable get_name : string -> option country.
Variable get_common_name : string -> option country.

(** C4.  Whatever the data base of countries holds, "USA" and "United
    States" resolve alike, to the numeric code of the record named "United
    States" when there is one; and "Kosovo" resolves to 0. *)
Theorem USA_is_United_States :
  get_country_id numeric get_name get_common_name "USA"
  = get_country_id numeric get_name get_common_name "United States"
  /\ (forall c, get_name "United States" = Some c ->
        get_country_id numeric get_name get_common_name "USA"
        = Ok (CStr (numeric c))
        /\ get_country_id numeric get_name get_common_name "United States"
           = Ok (CStr (numeric c)))
  /\ get_country_id numeric get_name get_common_name "Kosovo" = Ok (CInt 0).
Proof.
  split; [reflexivity|]. split; [|reflexivity].
  intros c Hc. unfold get_country_id.
  change (map_country_name "USA") with "United States".
  change (map_country_name "United States") with "United States".
  rewrite Hc. split; reflexivity.
Qed.

(** C5.  [__get_country_id] is the resolution of the specification: the
    Kosovo case, else the alias table first, the substitution of "Rep." on
    its result and before the two lookups, the literal name before the
    common name.  It raises, with the [AttributeError] of [iso.numeric],
    exactly when the name is not "Kosovo" and both lookups find nothing. *)
Theorem get_country_id_resolution (country_name : string) :
  get_country_id numeric get_name get_common_name country_name
  = Spec.reported
      (Spec.resolveIdentifier numeric get_name get_common_name country_name)
  /\ map_country_name country_name = Spec.expand_Rep (Spec.alias country_name)
  /\ (country_name <> "Kosovo" ->
      get_name (map_country_name country_name) = None ->
      get_common_name (map_country_name country_name) = None ->
      get_country_id numeric get_name get_common_name country_name
      = Raise AttributeError)
  /\ (forall e,
        get_country_id numeric get_name get_common_name country_name = Raise e ->
        e = AttributeError /\ country_name <> "Kosovo"
        /\ get_name (map_country_name country_name) = None
        /\ get_common_name (map_country_name country_name) = None).
Proof.
  split; [|split; [apply map_country_name_spec|]].
  - unfold get_country_id, Spec.resolveIdentifier.
    rewrite <- map_country_name_spec. simpl.
    destruct (String.eqb country_name "Kosovo"); [reflexivity|].
    destruct (get_name (map_country_name country_name)); [reflexivity|].
    destruct (get_common_name (map_country_name country_name)); reflexivity.
  - unfold get_country_id.
    destruct (String.eqb country_name "Kosovo") eqn:HK.
    + apply String.eqb_eq in HK. split; [intros H; contradiction | discriminate].
    + apply String.eqb_neq in HK. split.
      * intros _ -> ->. reflexivity.
      * intros e.
        destruct (get_name (map_country_name country_name)); [discriminate|].
        destruct (get_common_name (map_country_name country_name)); [discriminate|].
        intros [= <-]. auto.
Qed.

End Resolution.

Lemma USA_is_United_States_witness :
  get_country_id Samples.iso_numeric Samples.by_name Samples.by_common_name "USA"
  = Ok (CStr "840")
  /\ get_country_id Samples.iso_numeric Samples.by_name Samples.by_common_name
       "United States" = Ok (CStr "840").
Proof.
  apply (proj1 (proj2 (USA_is_United_States _ Samples.iso_numeric Samples.by_name
                         Samples.by_common_name))
           (Samples.mk_iso "United States" None "840")).
  reflexivity.
Defined.

Lemma get_country_id_resolution_witness :
  get_country_id Samples.iso_numeric Samples.by_name Samples.by_common_name "Atlantis"
  = Raise AttributeError.
Proof.
  apply (get_country_id_resolution _ Samples.iso_numeric Samples.by_name
           Samples.by_common_name "Atlantis").
  - discriminate.
  - reflexivity.
  - reflexivity.
Defined.

End SipriFacts.

(* ===================================================================== *)
(** * More about class Sheet                                              *)
(* ===================================================================== *)

Module SheetMore.
Import Py Sheet PyFacts SheetFacts.

(** ** Lists *)

Lemma filter_twice {A : Type} (f g : A -> bool) (l : list A) :
  filter f (filter g l) = filter (fun x => g x && f x) l.
Proof.
  induction l as [|a l IH]; simpl; [reflexivity|].
  destruct (g a); simpl; [destruct (f a)|]; now rewrite IH.
Qed.

Lemma filter_none {A : Type} (f : A -> bool) (l : list A) :
  (forall a, In a l -> f a = false) -> filter f l = [].
Proof.
  induction l as [|a l IH]; simpl; intros H; [reflexivity|].
  rewrite (H a (or_introl eq_refl)). apply IH. intros; apply H; now right.
Qed.

Lemma Forall2_filter {A B : Type} (R : A -> B -> Prop) (p : A -> bool)
    (q : B -> bool) (l : list A) (m : list B) :
  (forall a b, R a b -> p a = q b) ->
  Forall2 R l m -> Forall2 R (filter p l) (filter q m).
Proof.
  intros Hpq. induction 1 as [|a b l m Hab _ IH]; simpl; [constructor|].
  rewrite (Hpq a b Hab). destruct (q b); [constructor|]; assumption.
Qed.

Lemma mapM_raises {A B : Type} (f : A -> result B) (l : list A) (a : A) (e : pyexc) :
  In a l -> f a = Raise e -> exists e', mapM f l = Raise e'.
Proof.
  induction l as [|x l IH]; simpl; intros Hin Ha; [contradiction|].
  destruct (f x) as [b|e0] eqn:Hx; simpl; [|eauto].
  destruct Hin as [->|Hin]; [congruence|].
  destruct (IH Hin Ha) as (e' & He'). rewrite He'. simpl. eauto.
Qed.

(** ** The survivorship filter, again *)

(** The rows that reach the coercion of budgets. *)
Lemma living_rows_In (df : list (row cell cell)) (r : row cell cell) :
  In r df -> py_eq (Year r) (CInt 2020) = true -> Budget r <> CStr "xxx" ->
  In r (remove_dead_countries df).
Proof.
  intros Hr Hy Hx. apply remove_dead_countries_In. split; [assumption|].
  apply isin_In. apply living_countries_In. now exists r.
Qed.

Lemma living_countries_stable (df : list (row cell cell)) :
  living_countries (remove_dead_countries df) = living_countries df.
Proof.
  unfold living_countries, remove_dead_countries. f_equal.
  rewrite filter_twice. apply filter_ext_in. intros r Hr.
  destruct (py_eq (Year r) (CInt 2020) && py_ne (Budget r) (CStr "xxx")) eqn:E;
    [|apply andb_false_r].
  rewrite andb_true_r. apply isin_In. apply in_map. apply filter_In. now split.
Qed.

(** X1.  Removing the dead countries twice removes no more than removing
    them once: the countries that are alive in the filtered frame are those
    that were alive before. *)
Theorem remove_dead_countries_idempotent (df : list (row cell cell)) :
  remove_dead_countries (remove_dead_countries df) = remove_dead_countries df.
Proof.
  unfold remove_dead_countries at 1. rewrite living_countries_stable.
  unfold remove_dead_countries. rewrite filter_twice.
  apply filter_ext. intros r. apply andb_diag.
Qed.

Section Reading.

Variable reads : cell -> result num.

(** X2.  When no row without a missing value carries the year 2020 with a
    budget other than "xxx" (the header has no numeric 2020, or that column
    is all "xxx" or empty), [get_df] returns the empty frame and raises
    nothing, whatever else the sheet holds. *)
Theorem no_living_country (df : wide) :
  (forall r, In r (dropna (melt df)) ->
             py_eq (Year r) (CInt 2020) = true -> Budget r = CStr "xxx") ->
  get_df reads df = Ok (IntYears []).
Proof.
  intros Hdead.
  assert (Hliving : living_countries (dropna (melt df)) = []).
  { unfold living_countries.
    rewrite (filter_none _ (dropna (melt df))); [reflexivity|].
    intros r Hr. destruct (py_eq (Year r) (CInt 2020)) eqn:Hy; [|reflexivity].
    rewrite (Hdead r Hr Hy). reflexivity. }
  unfold get_df, fix_budget, remove_dead_countries. rewrite Hliving.
  rewrite (filter_none _ (dropna (melt df))); [reflexivity|].
  intros r _. reflexivity.
Qed.

(** ** From the sheet to the frame, row by row *)

(** A label equal to 2020 gives the year 2020 in an integer column. *)
Lemma py_eq_2020 (label : cell) (n : num) (y : Z) :
  py_eq label (CInt 2020) = true -> to_numeric reads label = Ok n ->
  downcast_to n y -> y = 2020.
Proof.
  destruct label as [z|x|s]; simpl; try discriminate.
  - intros H. apply Z.eqb_eq in H. subst z.
    change (to_numeric reads (CInt 2020)) with (@Ok num (NInt 2020)).
    intros [= <-] [H|H].
    + now injection H.
    + vm_compute in H. now injection H.
  - intros H [= <-] [Hd|Hd]; [discriminate|]. simpl in Hd.
    rewrite (float_eq_Z_downcast x 2020 H eq_refl) in Hd. now injection Hd.
Qed.

Lemma py_eq_year_kept (label : cell) (z : Z) :
  py_eq label (CInt z) = true -> py_ne label (CStr "2020 Current") = true.
Proof. destruct label; simpl; intros H; [reflexivity | reflexivity | discriminate]. Qed.

(** A row of the returned frame, beside the row of the melted sheet it
    comes from. *)
Lemma normalized_rows (df : wide) (rows : list (row Z float)) :
  get_df reads df = Ok (IntYears rows) ->
  Forall2 (fun r r' => Location r' = Location r
                       /\ (exists n, to_numeric reads (Year r) = Ok n
                                     /\ downcast_to n (Year r'))
                       /\ exists v, clean_budget (Budget r) = Ok v
                                    /\ Budget r' = astype_float64 v)
          (filter (fun r => py_ne (Year r) (CStr "2020 Current"))
                  (remove_dead_countries (dropna (melt df))))
          rows.
Proof.
  intros H. apply get_df_origin in H. destruct H as (df' & Hco & Hrows).
  simpl in Hrows.
  assert (Hkept := Forall2_filter coerced
                     (fun r => py_ne (Year r) (CStr "2020 Current"))
                     (fun r => py_ne (Year r) (CStr "2020 Current")) _ _
                     (fun r r' (Hrr' : coerced r r') =>
                        eq_sym (f_equal (fun y => py_ne y (CStr "2020 Current"))
                                        (proj1 Hrr')))
                     Hco).
  eapply Forall2_weaken; [|exact (Forall2_compose _ _ _ _ _ Hkept Hrows)].
  intros r r' (m & (Hy & Hl & v & Hv & Hb) & (n & Hn & Hz) & Hl' & Hb').
  split; [congruence|]. split.
  - exists n. split; [congruence | assumption].
  - exists v. split; congruence.
Qed.

(** X3.  The frame [get_df] returns with integer years is, row for row and
    in the order of the melted sheet, the rows of the living countries that
    have no missing value and are not labelled "2020 Current": same
    location, the budget coerced, and as year the integer read in the label
    or the downcast of the float read in it (a float within 1e-8 of its
    truncation counts as that integer).  So the two have as many rows, and a
    label that denotes an integer gives that integer. *)
Theorem get_df_rows (df : wide) (rows : list (row Z float)) :
  get_df reads df = Ok (IntYears rows) ->
  Forall2 (fun r r' => Location r' = Location r
                       /\ (exists n, to_numeric reads (Year r) = Ok n
                                     /\ downcast_to n (Year r'))
                       /\ (forall z, year_integer reads (Year r) = Some z ->
                                     Year r' = z)
                       /\ exists v, clean_budget (Budget r) = Ok v
                                    /\ Budget r' = astype_float64 v)
          (filter (fun r => py_ne (Year r) (CStr "2020 Current"))
                  (remove_dead_countries (dropna (melt df))))
          rows
  /\ List.length rows
     = List.length (filter (fun r => py_ne (Year r) (CStr "2020 Current"))
                           (remove_dead_countries (dropna (melt df)))).
Proof.
  intros H. apply normalized_rows in H. split.
  - eapply Forall2_weaken; [|exact H].
    intros r r' (Hl & (n & Hn & Hy) & Hb).
    split; [assumption|]. split; [now exists n|]. split; [|assumption].
    intros z Hz. apply year_integer_numeric in Hz.
    destruct Hz as (n' & Hn' & Hz). rewrite Hn in Hn'. injection Hn' as <-.
    exact (num_integer_year _ _ _ Hz Hy).
  - symmetry. exact (Forall2_length H).
Qed.

(** X4.  Every country of the returned frame has a row of the year 2020 in
    it: a location that survives owes it to a 2020 row, and that row
    survives too. *)
Theorem survivors_have_2020 (df : wide) (rows : list (row Z float)) :
  get_df reads df = Ok (IntYears rows) ->
  forall r, In r rows ->
    exists r0, In r0 rows /\ Year r0 = 2020
               /\ py_eq (Location r) (Location r0) = true.
Proof.
  intros H r Hr. apply normalized_rows in H.
  destruct (Forall2_In_r _ _ _ _ H Hr) as (s & Hs & Hl & _).
  apply filter_In in Hs. destruct Hs as (Hs & _).
  apply remove_dead_countries_In in Hs. destruct Hs as (Hs & Hin).
  unfold isin in Hin. apply existsb_exists in Hin. destruct Hin as (v & Hv & Hmatch).
  assert (Hna : isna (Location s) = false).
  { unfold dropna in Hs. apply filter_In in Hs. destruct Hs as (_ & Hs).
    apply negb_true_iff in Hs. apply orb_false_iff in Hs. destruct Hs as (Hs & _).
    apply orb_false_iff in Hs. tauto. }
  rewrite Hna, andb_false_l, orb_false_r in Hmatch.
  apply living_countries_In in Hv. destruct Hv as (s0 & Hs0 & <- & Hy & Hx).
  assert (Hkept : In s0 (filter (fun r => py_ne (Year r) (CStr "2020 Current"))
                                (remove_dead_countries (dropna (melt df))))).
  { apply filter_In. split; [now apply living_rows_In|].
    now apply (py_eq_year_kept _ 2020). }
  destruct (Forall2_In_l _ _ _ _ H Hkept) as (r0 & Hr0 & Hl0 & (n & Hn & Hy0) & _).
  exists r0. split; [assumption|]. split.
  - exact (py_eq_2020 _ _ _ Hy Hn Hy0).
  - congruence.
Qed.

(** ** When [get_df] raises *)

Lemma to_numeric_raises (label : cell) (e : pyexc) :
  to_numeric reads label = Raise e ->
  reads label = Raise e
  /\ ((exists s, label = CStr s) \/ (exists z, label = CInt z /\ int64 z = false)).
Proof.
  destruct label as [z|x|s]; simpl.
  - destruct (int64 z) eqn:E; [discriminate|].
    intros H. split; [exact H|]. right. now exists z.
  - discriminate.
  - intros H. split; [exact H|]. left. now exists s.
Qed.

Lemma to_numeric_open (label : cell) :
  (exists s, label = CStr s) \/ (exists z, label = CInt z /\ int64 z = false) ->
  to_numeric reads label = reads label.
Proof. intros [(s & ->)|(z & -> & Hz)]; simpl; [reflexivity | now rewrite Hz]. Qed.

Lemma clean_budget_overflow (z : Z) (sgn : bool) :
  round_Z z = S754_infinity sgn -> clean_budget (CInt z) = Raise OverflowError.
Proof. intros H. unfold clean_budget. simpl. now rewrite H. Qed.

(** X5.  On a sheet of numbers, texts and empty cells, [get_df] raises in
    two ways only, the rows concerned being those of the living countries
    without a missing value.  It raises [OverflowError] when one of them has
    an integer budget beyond the range of a float, and only then with that
    cause; otherwise it raises when one of them has a label other than
    "2020 Current" on which [pandas.to_numeric] raises, with the error of
    such a label, which is then a text or an integer beyond 64 bits.  So a
    bad cell of a dead country, or under "2020 Current", is harmless for the
    label, and the budgets are examined first. *)
Theorem get_df_raises (df : wide) :
  let living := remove_dead_countries (dropna (melt df)) in
  let too_large (r : row cell cell) :=
    exists z sgn, Budget r = CInt z /\ round_Z z = S754_infinity sgn in
  let unread (r : row cell cell) (e : pyexc) :=
    Year r <> CStr "2020 Current" /\ reads (Year r) = Raise e
    /\ ((exists s, Year r = CStr s)
        \/ (exists z, Year r = CInt z /\ int64 z = false)) in
  (forall e, get_df reads df = Raise e ->
     (e = OverflowError /\ exists r, In r living /\ too_large r)
     \/ ((forall r, In r living -> ~ too_large r)
         /\ exists r, In r living /\ unread r e))
  /\ ((exists r, In r living /\ too_large r) ->
      get_df reads df = Raise OverflowError)
  /\ ((forall r, In r living -> ~ too_large r) ->
      (exists r e, In r living /\ unread r e) ->
      exists e, get_df reads df = Raise e).
Proof.
  intros living too_large unread.
  assert (Hbudget : forall e', fix_budget (melt df) = Raise e' ->
                      e' = OverflowError /\ exists r, In r living /\ too_large r).
  { intros e' H. unfold fix_budget in H. apply mapM_Raise in H.
    destruct H as (r & Hr & H).
    destruct (clean_budget (Budget r)) as [v|e0] eqn:Hc; simpl in H; [discriminate|].
    injection H as ->. apply clean_budget_raises in Hc.
    destruct Hc as (-> & z & sgn & Hz & Hinf).
    split; [reflexivity|]. exists r. split; [exact Hr|]. now exists z, sgn. }
  assert (Hfine : forall df', fix_budget (melt df) = Ok df' ->
                    forall r, In r living -> ~ too_large r).
  { intros df' H r Hr (z & sgn & Hz & Hinf). apply fix_budget_rows in H.
    destruct (Forall2_In_l _ _ _ _ H Hr) as (r' & _ & _ & _ & v & Hv & _).
    rewrite Hz, (clean_budget_overflow z sgn Hinf) in Hv. discriminate. }
  assert (Hyear : forall df' e', fix_budget (melt df) = Ok df' ->
                    fix_year reads df' = Raise e' ->
                    exists r, In r living /\ unread r e').
  { intros df' e' Hb H. unfold fix_year in H.
    destruct (mapM _ (drop_2020_Current df')) as [nums|e0] eqn:Hm; simpl in H;
      [discriminate|].
    injection H as ->. apply mapM_Raise in Hm. destruct Hm as (m & Hm & H).
    destruct (to_numeric reads (Year m)) as [n|e0] eqn:Hn; simpl in H; [discriminate|].
    injection H as ->. destruct (to_numeric_raises _ _ Hn) as (Hreads & Hkind).
    apply drop_2020_Current_In in Hm.
    destruct Hm as (Hm & Hlabel). apply fix_budget_rows in Hb.
    destruct (Forall2_In_r _ _ _ _ Hb Hm) as (r & Hr & Hy & _).
    exists r. split; [exact Hr|]. unfold unread. rewrite <- Hy. auto. }
  assert (Hraises : (exists r, In r living /\ too_large r) ->
                    get_df reads df = Raise OverflowError).
  { intros (r & Hr & z & sgn & Hz & Hinf).
    destruct (mapM_raises
                (fun r => b <- clean_budget (Budget r) ;;
                          Ok (mk_row (Year r) (Location r) (astype_float64 b)))
                living r OverflowError Hr) as (e' & He').
    { rewrite Hz, (clean_budget_overflow z sgn Hinf). reflexivity. }
    change (fix_budget (melt df) = Raise e') in He'.
    unfold get_df. rewrite He'. simpl. f_equal. now apply Hbudget. }
  split; [|split; [exact Hraises|]].
  - intros e. unfold get_df.
    destruct (fix_budget (melt df)) as [df'|e0] eqn:Hb; simpl; intros H.
    + right. split; [exact (Hfine df' eq_refl) | exact (Hyear df' e eq_refl H)].
    + injection H as ->. left. now apply Hbudget.
  - intros Hnone (r & e0 & Hr & Hlabel & Hreads & Hkind). unfold get_df.
    destruct (fix_budget (melt df)) as [df'|e1] eqn:Hb; simpl.
    + assert (Hco := fix_budget_rows _ _ Hb).
      destruct (Forall2_In_l _ _ _ _ Hco Hr) as (m & Hm & Hy & _).
      assert (Hkept : In m (drop_2020_Current df')).
      { apply drop_2020_Current_In. split; [assumption|]. congruence. }
      destruct (mapM_raises
                  (fun r => y <- to_numeric reads (Year r) ;;
                            Ok (mk_row y (Location r) (Budget r)))
                  (drop_2020_Current df') m e0 Hkept) as (e' & He').
      { rewrite Hy, (to_numeric_open _ Hkind), Hreads. reflexivity. }
      exists e'. unfold fix_year. now rewrite He'.
    + destruct (Hbudget e1 eq_refl) as (_ & r0 & Hr0 & Hbad).
      contradiction (Hnone r0 Hr0).
Qed.

(** ** Normalising what is normalised *)

Lemma integer_years_of_integers (rows : list (row Z float)) :
  integer_years (map (fun r => mk_row (NInt (Year r)) (Location r) (Budget r)) rows)
  = Some rows.
Proof.
  induction rows as [|[y l b] rows IH]; simpl; [reflexivity|]. now rewrite IH.
Qed.

(** X20.  [fix_year] leaves a frame with integer years as it is: given the
    rows of such a frame, their years as integer cells of 64 bits, it
    returns the frame again, with every row and in the same order. *)
Theorem fix_year_stable (rows : list (row Z float)) :
  (forall r, In r rows -> int64 (Year r) = true) ->
  fix_year reads (map (fun r => mk_row (CInt (Year r)) (Location r) (Budget r)) rows)
  = Ok (IntYears rows).
Proof.
  intros Hfit. unfold fix_year, drop_2020_Current.
  rewrite forallb_filter_id
    by (apply forallb_forall; intros r Hr; apply in_map_iff in Hr;
        now destruct Hr as (r0 & <- & _)).
  assert (Hnum : mapM (fun r : row cell float =>
                         y <- to_numeric reads (Year r) ;;
                         Ok (mk_row y (Location r) (Budget r)))
                      (map (fun r => mk_row (CInt (Year r)) (Location r) (Budget r))
                           rows)
                 = Ok (map (fun r => mk_row (NInt (Year r)) (Location r) (Budget r))
                           rows)).
  { induction rows as [|r rows IH]; simpl; [reflexivity|].
    rewrite (Hfit r (or_introl eq_refl)). simpl.
    rewrite IH; [reflexivity|]. intros r' Hr'. apply Hfit. now right. }
  rewrite Hnum. simpl. unfold downcast_integer.
  now rewrite integer_years_of_integers.
Qed.

End Reading.

Lemma no_living_country_witness :
  get_df Samples.reads_integers (mk_wide [ CStr "2020"; CStr "Notes" ]
                                [ (CStr "A", [ CInt 7; CInt (2 ^ 1024) ]) ])
  = Ok (IntYears []).
Proof.
  apply no_living_country. intros r Hr Hy. vm_compute in Hr.
  repeat (destruct Hr as [<-|Hr]; [discriminate Hy|]). contradiction.
Defined.

Lemma get_df_rows_witness :
  List.length Samples.normalized
  = List.length (filter (fun r => py_ne (Year r) (CStr "2020 Current"))
                        (remove_dead_countries (dropna (melt Samples.tab)))).
Proof.
  apply (get_df_rows Samples.reads_integers Samples.tab Samples.normalized).
  vm_compute. reflexivity.
Defined.

Lemma survivors_have_2020_witness :
  exists r0, In r0 Samples.normalized /\ Year r0 = 2020
             /\ py_eq (CStr "B") (Location r0) = true.
Proof.
  apply (survivors_have_2020 Samples.reads_integers Samples.tab Samples.normalized
           ltac:(vm_compute; reflexivity) (mk_row 2019 (CStr "B") nan)).
  simpl. left. reflexivity.
Defined.

Lemma get_df_raises_witness :
  exists e,
    get_df Samples.reads_integers
      (mk_wide [ CInt 2020; CStr "Notes"; CStr "2020 Current" ]
               [ (CStr "A", [ CInt 7; CStr "see below"; CStr "?" ]);
                 (CStr "B", [ CStr "xxx"; CInt (2 ^ 1024); CInt 1 ]) ])
    = Raise e.
Proof.
  apply (get_df_raises Samples.reads_integers
           (mk_wide [ CInt 2020; CStr "Notes"; CStr "2020 Current" ]
                    [ (CStr "A", [ CInt 7; CStr "see below"; CStr "?" ]);
                      (CStr "B", [ CStr "xxx"; CInt (2 ^ 1024); CInt 1 ]) ])).
  - intros r Hr (z & sgn & Hz & Hinf). vm_compute in Hr.
    repeat (destruct Hr as [<-|Hr];
            [first [discriminate Hz | injection Hz as <-; discriminate Hinf]|]).
    contradiction.
  - exists (mk_row (CStr "Notes") (CStr "A") (CStr "see below")), ValueError.
    split; [vm_compute; right; left; reflexivity|].
    split; [discriminate|]. split; [reflexivity|]. left. now exists "Notes".
Defined.

(** The years must fit 64 bits: with the sample reading, where an integer
    beyond 64 bits becomes a float, the frame of such a year comes back with
    a column of floats. *)
Example fix_year_beyond_64_bits :
  fix_year Samples.reads_integers [ mk_row (CInt (2 ^ 70)) (CStr "B") nan ]
  = Ok (FloatYears [ mk_row (round_Z (2 ^ 70)) (CStr "B") nan ]).
Proof. vm_compute. reflexivity. Qed.

Lemma fix_year_stable_witness :
  fix_year Samples.reads_integers
    (map (fun r => mk_row (CInt (Year r)) (Location r) (Budget r)) Samples.normalized)
  = Ok (IntYears Samples.normalized).
Proof.
  apply (fix_year_stable Samples.reads_integers Samples.normalized).
  intros r Hr. simpl in Hr.
  repeat (destruct Hr as [<-|Hr]; [reflexivity|]). contradiction.
Defined.

(** ** The reshaping *)

(** X6.  When every column of the frame has a cell for each label, [melt]
    returns one row for each pair of a column and a label, column after
    column: the rows of a column carry its name and, in order, the labels
    with the cells. *)
Theorem melt_rows (df : wide) :
  (forall column, In column (columns df) ->
                  List.length (snd column) = List.length (labels df)) ->
  List.length (melt df) = (List.length (columns df) * List.length (labels df))%nat
  /\ map Location (melt df)
     = flat_map (fun column => repeat (fst column) (List.length (labels df)))
                (columns df)
  /\ map Year (melt df) = flat_map (fun _ => labels df) (columns df)
  /\ map Budget (melt df) = flat_map snd (columns df).
Proof.
  unfold melt. generalize (labels df) as ls. intros ls.
  induction (columns df) as [|(name, cells) cs IH]; simpl; intros H.
  - repeat split.
  - assert (Hlen : List.length cells = List.length ls)
      by (apply (H (name, cells)); now left).
    destruct IH as (IH1 & IH2 & IH3 & IH4); [intros; apply H; now right|].
    rewrite !map_app, !map_map, length_app, length_map, length_combine. simpl.
    rewrite Hlen, Nat.min_id, IH1, IH2, IH3, IH4.
    repeat split; f_equal.
    + clear - Hlen. revert cells Hlen.
      induction ls as [|l ls IHl]; intros [|c cells]; simpl; try discriminate;
        [reflexivity|]. intros [= H]. f_equal. now apply IHl.
    + clear - Hlen. revert cells Hlen.
      induction ls as [|l ls IHl]; intros [|c cells]; simpl; try discriminate;
        [reflexivity|]. intros [= H]. f_equal. now apply IHl.
    + clear - Hlen. revert cells Hlen.
      induction ls as [|l ls IHl]; intros [|c cells]; simpl; try discriminate;
        [reflexivity|]. intros [= H]. f_equal. now apply IHl.
Qed.

Lemma melt_rows_witness :
  List.length (melt Samples.tab) = 6%nat
  /\ map Location (melt Samples.tab)
     = [ CStr "A"; CStr "A"; CStr "A"; CStr "B"; CStr "B"; CStr "B" ].
Proof.
  destruct (melt_rows Samples.tab) as (Hlen & Hloc & _).
  - intros column Hin. simpl in Hin.
    repeat (destruct Hin as [<-|Hin]; [reflexivity|]). contradiction.
  - split; [exact Hlen | exact Hloc].
Defined.

(** X19.  The coercion of budgets is stable: a cell of the [float64] column
    that [clean_budget] and [astype] produced is coerced to the same budget
    again, the number to itself and NaN to the absent budget. *)
Theorem clean_budget_stable (item : cell) (v : option float) :
  clean_budget item = Ok v ->
  clean_budget (CFloat (astype_float64 v)) = Ok v.
Proof.
  intros H. destruct v as [x|]; [|reflexivity].
  apply clean_budget_not_nan in H. unfold clean_budget. simpl. now rewrite H.
Qed.

Lemma clean_budget_stable_witness :
  clean_budget (CFloat (astype_float64 (Some (Samples.flt 7))))
  = Ok (Some (Samples.flt 7))
  /\ clean_budget (CFloat (astype_float64 None)) = Ok None.
Proof.
  split.
  - apply (clean_budget_stable (CInt 7)). reflexivity.
  - apply (clean_budget_stable (CStr "xxx")). reflexivity.
Defined.

End SheetMore.

(* ===================================================================== *)
(** * More about class Sipri                                              *)
(* ===================================================================== *)

Module SipriMore.
Import Py Sheet Sipri Views PyFacts SipriFacts.

(** ** Selections *)

Lemma select_df_twice (sheet : table) (names1 names2 : list cell)
    (first1 first2 : Z) (ticks1 ticks2 : list Z) (last1 last2 : Z) :
  (a <- select_df sheet names1 (first1 :: ticks1) last1 ;;
   select_df a names2 (first2 :: ticks2) last2)
  = Ok (filter (fun r => ((first1 <=? Year r) && (Year r <? last1)
                          && isin (Location r) names1)
                         && ((first2 <=? Year r) && (Year r <? last2)
                             && isin (Location r) names2)) sheet).
Proof.
  rewrite select_df_cons. unfold bind. rewrite select_df_cons.
  now rewrite SheetMore.filter_twice.
Qed.

(** X7.  Selections compose: selecting from a selection gives the same
    frame in either order, and selecting again with the same arguments
    changes nothing.  This holds for empty tick lists too, where both sides
    raise [IndexError]. *)
Theorem select_df_commutes (sheet : table) (names1 names2 : list cell)
    (ticks1 ticks2 : list Z) (last1 last2 : Z) :
  (a <- select_df sheet names1 ticks1 last1 ;; select_df a names2 ticks2 last2)
  = (b <- select_df sheet names2 ticks2 last2 ;; select_df b names1 ticks1 last1)
  /\ (a <- select_df sheet names1 ticks1 last1 ;; select_df a names1 ticks1 last1)
     = select_df sheet names1 ticks1 last1.
Proof.
  split.
  - destruct ticks1 as [|first1 ticks1]; destruct ticks2 as [|first2 ticks2];
      try reflexivity.
    rewrite !select_df_twice. f_equal. apply filter_ext. intros r.
    apply andb_comm.
  - destruct ticks1 as [|first1 ticks1]; [reflexivity|].
    rewrite select_df_twice, select_df_cons. f_equal. apply filter_ext.
    intros r. apply andb_diag.
Qed.

(** X8.  When [last_year] is not above the first tick, the range of years
    is empty and [__select_df] returns the empty frame; it does not raise. *)
Theorem select_df_empty_range (sheet : table) (names : list cell) (first : Z)
    (ticks : list Z) (last : Z) :
  last <= first ->
  select_df sheet names (first :: ticks) last = Ok [].
Proof.
  intros H. rewrite select_df_cons. f_equal. apply SheetMore.filter_none.
  intros r _. destruct (first <=? Year r) eqn:E1; [|reflexivity].
  destruct (Year r <? last) eqn:E2; [|reflexivity].
  apply Z.leb_le in E1. apply Z.ltb_lt in E2. lia.
Qed.

Lemma select_df_empty_range_witness :
  select_df Samples.regions [CStr "Americas"] [2021; 2000] 2021 = Ok [].
Proof. apply select_df_empty_range. lia. Defined.

(** ** Years *)

Lemma values_at_nonempty (y : Z) (s : series) : exists v, In v (values_at y s).
Proof.
  unfold values_at. destruct (map snd (filter (fun p => fst p =? y) s)) as [|v vs].
  - exists nan. now left.
  - exists v. now left.
Qed.

Lemma combine_years (lhs rhs : series) :
  map fst lhs = map fst rhs ->
  map (fun p => fst (fst p)) (combine lhs rhs) = map fst lhs.
Proof.
  revert rhs. induction lhs as [|p lhs IH]; intros [|q rhs]; simpl;
    try discriminate; [reflexivity|].
  intros [= _ H]. f_equal. now apply IH.
Qed.

Lemma insert_year_sorted (y : Z) (l : list Z) :
  StronglySorted Z.lt l -> StronglySorted Z.lt (insert_year y l).
Proof.
  induction 1 as [|x l Hl IH Hx]; simpl.
  - repeat constructor.
  - destruct (y <? x) eqn:E1.
    + apply Z.ltb_lt in E1. constructor; [now constructor|].
      constructor; [assumption|].
      eapply Forall_impl; [|exact Hx]. intros z Hz. simpl in Hz. lia.
    + destruct (y =? x) eqn:E2; [now constructor|].
      apply Z.ltb_ge in E1. apply Z.eqb_neq in E2.
      constructor; [assumption|]. apply Forall_forall. intros z Hz.
      apply insert_year_In in Hz. destruct Hz as [->|Hz]; [lia|].
      now apply (proj1 (Forall_forall _ _) Hx).
Qed.

Lemma union_years_sorted (l r : list Z) : StronglySorted Z.lt (union_years l r).
Proof.
  unfold union_years. induction (l ++ r) as [|x m IH]; simpl.
  - constructor.
  - now apply insert_year_sorted.
Qed.

Lemma sorted_NoDup (l : list Z) : StronglySorted Z.lt l -> NoDup l.
Proof.
  induction 1 as [|x l Hl IH Hx]; constructor; [|assumption].
  intros Hin. apply (proj1 (Forall_forall _ _) Hx) in Hin. lia.
Qed.

Lemma filter_year_missing (y : Z) (s : series) :
  ~ In y (map fst s) -> filter (fun p => fst p =? y) s = [].
Proof.
  intros H. apply SheetMore.filter_none. intros (x, a) Hin. simpl.
  apply Z.eqb_neq. intros ->. apply H. apply in_map_iff. now exists (y, a).
Qed.

Lemma values_at_single (y : Z) (s : series) :
  NoDup (map fst s) -> exists v, values_at y s = [v].
Proof.
  unfold values_at. induction s as [|(x, a) s IH]; simpl; intros Hnd.
  - now exists nan.
  - inversion Hnd as [|? ? Hx Hnd']; subst.
    destruct (x =? y) eqn:E.
    + apply Z.eqb_eq in E. subst. rewrite (filter_year_missing y s Hx).
      now exists a.
    + exact (IH Hnd').
Qed.

Section Aligned.

Variable join_order : list Z -> list Z -> nat -> Z.

(** ** The rows derived for Americas *)

Lemma subtract_aligned_same_years (lhs rhs : series) :
  map fst lhs = map fst rhs ->
  map fst (subtract_aligned join_order lhs rhs) = map fst lhs.
Proof.
  intros H. unfold subtract_aligned. rewrite (proj2 (years_equal_eq _ _) H).
  rewrite map_map. simpl. now apply combine_years.
Qed.

Lemma subtract_aligned_years (lhs rhs : series) (y : Z) :
  In y (map fst (subtract_aligned join_order lhs rhs)) <->
  In y (map fst lhs) \/ In y (map fst rhs).
Proof.
  destruct (years_equal (map fst lhs) (map fst rhs)) eqn:E.
  - apply years_equal_eq in E. rewrite (subtract_aligned_same_years _ _ E).
    rewrite <- E. tauto.
  - unfold subtract_aligned. rewrite E, <- union_years_In, in_map_iff. split.
    + intros ((y', v) & <- & H). apply arrange_In in H. apply in_flat_map in H.
      destruct H as (y0 & Hy0 & H). apply in_flat_map in H.
      destruct H as (a & _ & H). apply in_map_iff in H.
      destruct H as (b & [= <- _] & _). exact Hy0.
    + intros Hy.
      destruct (values_at_nonempty y lhs) as (a & Ha).
      destruct (values_at_nonempty y rhs) as (b & Hb).
      exists (y, fsub a b). split; [reflexivity|]. apply arrange_In.
      apply in_flat_map. exists y. split; [assumption|].
      apply in_flat_map. exists a. split; [assumption|].
      apply in_map_iff. now exists b.
Qed.

Lemma subtract_usa_split (region_df usa_df : table) :
  subtract_usa_from_americas join_order region_df usa_df
  = filter (fun r => negb (is_americas r)) region_df
    ++ map (fun p => mk_row (fst p) (CStr "Americas minus US") (snd p))
           (subtract_aligned join_order (by_year (filter is_americas region_df))
                             (by_year usa_df)).
Proof. reflexivity. Qed.

(** X9.  [__subtract_usa_from_americas] returns the rows of the other
    regions, unchanged and in their order, followed by derived rows that are
    all named "Americas minus US"; a year has a derived row exactly when it
    is a year of a row of Americas or of a row of the USA. *)
Theorem derived_rows (region_df usa_df : table) :
  exists derived,
    subtract_usa_from_americas join_order region_df usa_df
    = filter (fun r => negb (is_americas r)) region_df ++ derived
    /\ (forall r, In r derived -> Location r = CStr "Americas minus US")
    /\ (forall y, In y (map Year derived) <->
                  In y (map Year (filter is_americas region_df))
                  \/ In y (map Year usa_df)).
Proof.
  eexists. split; [apply subtract_usa_split|]. split.
  - intros r Hr. apply in_map_iff in Hr. now destruct Hr as (p & <- & _).
  - intros y. rewrite map_map. simpl.
    change (map (fun p : Z * float => fst p)) with (map (@fst Z float)).
    now rewrite subtract_aligned_years, !by_year_years.
Qed.

(** ** Distinct years stay distinct *)

Lemma subtract_aligned_joined_years (lhs rhs : series) :
  years_equal (map fst lhs) (map fst rhs) = false ->
  NoDup (map fst lhs) -> NoDup (map fst rhs) ->
  Permutation (map fst (subtract_aligned join_order lhs rhs))
              (union_years (map fst lhs) (map fst rhs)).
Proof.
  intros E Hl Hr. unfold subtract_aligned. rewrite E.
  rewrite (Permutation_map fst (arrange_perm _ _)).
  induction (union_years (map fst lhs) (map fst rhs)) as [|y ys IH]; simpl;
    [reflexivity|].
  destruct (values_at_single y lhs Hl) as (a & ->).
  destruct (values_at_single y rhs Hr) as (b & ->).
  simpl. now apply perm_skip.
Qed.

(** X10.  When the rows of Americas have distinct years and the rows of the
    USA have distinct years, the derived rows have distinct years: they keep
    the years of Americas in their order when the USA has the same years in
    the same order; otherwise every year of either side has one derived row,
    in the order of the join. *)
Theorem derived_years_distinct (region_df usa_df : table) :
  NoDup (map Year (filter is_americas region_df)) ->
  NoDup (map Year usa_df) ->
  exists derived,
    subtract_usa_from_americas join_order region_df usa_df
    = filter (fun r => negb (is_americas r)) region_df ++ derived
    /\ NoDup (map Year derived)
    /\ (map Year (filter is_americas region_df) = map Year usa_df ->
        map Year derived = map Year usa_df)
    /\ (map Year (filter is_americas region_df) <> map Year usa_df ->
        Permutation (map Year derived)
          (union_years (map Year (filter is_americas region_df)) (map Year usa_df))).
Proof.
  intros Ha Hu. eexists. split; [apply subtract_usa_split|].
  rewrite map_map. simpl.
  change (map (fun p : Z * float => fst p)) with (map (@fst Z float)).
  rewrite <- (by_year_years (filter is_americas region_df)) in *.
  rewrite <- (by_year_years usa_df) in *.
  destruct (years_equal (map fst (by_year (filter is_americas region_df)))
                        (map fst (by_year usa_df))) eqn:E.
  - apply years_equal_eq in E. rewrite (subtract_aligned_same_years _ _ E).
    split; [assumption|]. split; [intros _; exact E | intros H; contradiction].
  - assert (Hp := subtract_aligned_joined_years _ _ E Ha Hu).
    split; [|split].
    + apply (Permutation_NoDup (Permutation_sym Hp)).
      apply sorted_NoDup, union_years_sorted.
    + intros H. apply years_equal_eq in H. congruence.
    + intros _. exact Hp.
Qed.

(** ** The merged frame *)


(** Where a row of the merged frame comes from. *)
Lemma merge_rows (self : sipri) (region_names : list cell) (first : Z)
    (ticks : list Z) (out : table) :
  merge_USA_into_regional join_order self region_names (first :: ticks) = Ok out ->
  exists region_df usa_df,
    select_df (regional_totals self) region_names (first :: ticks) default_last_year
      = Ok region_df
    /\ select_df (constant_USD self) [CStr "USA"] (first :: ticks) default_last_year
      = Ok usa_df
    /\ forall r, In r out ->
         (In r region_df
          /\ (contains (CStr "Americas") region_names = true -> is_americas r = false))
         \/ (contains (CStr "Americas") region_names = true
             /\ Location r = CStr "Americas minus US"
             /\ (In (Year r) (map Year (filter is_americas region_df))
                 \/ In (Year r) (map Year usa_df)))
         \/ (exists ru, In ru usa_df /\ Location ru = CStr "USA"
               /\ r = mk_row (Year ru) (Location ru)
                        (fdiv (Budget ru) (round_Z 1000))).
Proof.
  assert (Hr := select_df_cons (regional_totals self) region_names first ticks
                  default_last_year).
  assert (Hu := select_df_cons (constant_USD self) [CStr "USA"] first ticks
                  default_last_year).
  assert (Husa := select_df_In _ _ _ _ _ _ Hu).
  revert Hr Hu Husa.
  generalize (filter (fun r => (first <=? Year r) && (Year r <? default_last_year)
                               && isin (Location r) region_names)
                     (regional_totals self)).
  generalize (filter (fun r => (first <=? Year r) && (Year r <? default_last_year)
                               && isin (Location r) [CStr "USA"])
                     (constant_USD self)).
  intros usa_df region_df Hr Hu Husa Hout.
  exists region_df, usa_df. split; [exact Hr|]. split; [exact Hu|].
  rewrite (merge_unfold _ _ _ _ _ _ Hr Hu) in Hout. injection Hout as <-.
  intros r Hin. apply in_app_or in Hin. destruct Hin as [Hin|Hin].
  - destruct (contains (CStr "Americas") region_names) eqn:Hc.
    + rewrite subtract_usa_split in Hin. apply in_app_or in Hin.
      destruct Hin as [Hin|Hin].
      * apply filter_In in Hin. destruct Hin as (Hin & Ham).
        left. split; [assumption|]. intros _. now apply negb_true_iff.
      * right. left. apply in_map_iff in Hin. destruct Hin as ((y, v) & <- & Hin).
        split; [reflexivity|]. split; [reflexivity|]. simpl.
        rewrite <- by_year_years, <- (transform_years usa_df), <- (by_year_years
          (transform_country_to_regional usa_df)).
        apply subtract_aligned_years. apply in_map_iff. now exists (y, v).
    + left. split; [assumption | discriminate].
  - right. right. apply transform_In in Hin. destruct Hin as (ru & Hru & ->).
    exists ru. split; [assumption|]. split; [|reflexivity].
    apply isin_USA. now apply Husa.
Qed.

(** X11.  Whatever the region names, a frame the merge returns has no row
    named "Americas": that name is either not selected or replaced. *)
Theorem merge_never_Americas (self : sipri) (region_names : list cell)
    (ticks : list Z) (out : table) :
  merge_USA_into_regional join_order self region_names ticks = Ok out ->
  forall r, In r out -> Location r <> CStr "Americas".
Proof.
  destruct ticks as [|first ticks]; [discriminate|].
  intros Hout r Hin Hname.
  destruct (merge_rows _ _ _ _ _ Hout) as (region_df & usa_df & Hr & _ & Hrows).
  destruct (Hrows r Hin) as [(Hreg & Ham)|[(_ & Hl & _)|(ru & _ & Hl & ->)]].
  - assert (Hc : contains (CStr "Americas") region_names = true).
    { apply contains_CStr. apply isin_CStr. rewrite <- Hname.
      now apply (select_df_In _ _ _ _ _ _ Hr). }
    specialize (Ham Hc). apply is_americas_spec in Hname. congruence.
  - congruence.
  - simpl in Hname. congruence.
Qed.

(** X12.  Every row of the merged frame has its year in the window of the
    selection, from the first tick to 2020: the derived rows too, since
    their years are years of selected rows. *)
Theorem merge_window (self : sipri) (region_names : list cell) (first : Z)
    (ticks : list Z) (out : table) :
  merge_USA_into_regional join_order self region_names (first :: ticks) = Ok out ->
  forall r, In r out -> first <= Year r < default_last_year.
Proof.
  intros Hout r Hin.
  destruct (merge_rows _ _ _ _ _ Hout) as (region_df & usa_df & Hr & Hu & Hrows).
  assert (Hreg := select_df_In _ _ _ _ _ _ Hr).
  assert (Husa := select_df_In _ _ _ _ _ _ Hu).
  destruct (Hrows r Hin) as [(H & _)|[(_ & _ & [H|H])|(ru & H & _ & ->)]].
  - now apply Hreg.
  - apply in_map_iff in H. destruct H as (ra & <- & H).
    apply filter_In in H. destruct H as (H & _). now apply Hreg.
  - apply in_map_iff in H. destruct H as (ru & <- & H). now apply Husa.
  - simpl. now apply Husa.
Qed.


End Aligned.

Lemma derived_years_distinct_witness :
  exists derived,
    subtract_usa_from_americas Samples.by_label Samples.regions
      [ mk_row 2019 (CStr "USA") (Samples.flt 700);
        mk_row 2020 (CStr "USA") (Samples.flt 800) ]
    = filter (fun r => negb (is_americas r)) Samples.regions ++ derived
    /\ NoDup (map Year derived)
    /\ Permutation (map Year derived) [2018; 2019; 2020].
Proof.
  destruct (derived_years_distinct Samples.by_label Samples.regions
              [ mk_row 2019 (CStr "USA") (Samples.flt 700);
                mk_row 2020 (CStr "USA") (Samples.flt 800) ])
    as (derived & Hsplit & Hnd & _ & Hunion).
  - vm_compute. repeat constructor; simpl; intuition discriminate.
  - vm_compute. repeat constructor; simpl; intuition discriminate.
  - exists derived. split; [exact Hsplit|]. split; [exact Hnd|].
    apply Hunion. vm_compute. discriminate.
Defined.

Lemma merge_never_Americas_witness :
  ~ In (CStr "Americas")
       (map Location
          [ mk_row 2019 (CStr "Europe") (Samples.flt 300);
            mk_row 2019 (CStr "USA") (fdiv (Samples.flt 700000) (round_Z 1000));
            mk_row 2020 (CStr "USA") (fdiv (Samples.flt 800000) (round_Z 1000)) ]).
Proof.
  intros Hin. apply in_map_iff in Hin. destruct Hin as (r & Hname & Hr).
  apply (merge_never_Americas Samples.by_label Samples.dataset [CStr "Europe"] [2019] _
           ltac:(vm_compute; reflexivity) r Hr Hname).
Defined.

Lemma merge_window_witness :
  Forall (fun r => 2019 <= Year r < default_last_year)
    [ mk_row 2019 (CStr "Europe") (Samples.flt 300);
      mk_row 2019 (CStr "USA") (fdiv (Samples.flt 700000) (round_Z 1000));
      mk_row 2020 (CStr "USA") (fdiv (Samples.flt 800000) (round_Z 1000)) ].
Proof.
  apply Forall_forall.
  apply (merge_window Samples.by_label Samples.dataset [CStr "Europe"] 2019 []).
  vm_compute. reflexivity.
Defined.


(** ** Names and identifiers *)

Lemma occurs_cons (old : string) (c : ascii) (s : string) :
  occurs old (String c s) = String.prefix old (String c s) || occurs old s.
Proof. reflexivity. Qed.

Lemma replace_from_cons (old new : string) (c : ascii) (s : string) :
  replace_from old new 0 (String c s)
  = if String.prefix old (String c s)
    then String.append new (replace_from old new (String.length old - 1) s)
    else String c (replace_from old new 0 s).
Proof. reflexivity. Qed.

Lemma replace_absent (old new s : string) :
  occurs old s = false -> replace_from old new 0 s = s.
Proof.
  induction s as [|c s IH]; [reflexivity|].
  rewrite occurs_cons, replace_from_cons. intros H.
  apply orb_false_iff in H. destruct H as (Hp & Hs).
  rewrite Hp. f_equal. now apply IH.
Qed.

Lemma getitem_missing (d : list (string * string)) (key : string) :
  ~ In key (map fst d) -> getitem d key = Raise KeyError.
Proof.
  induction d as [|(k, v) d IH]; simpl; intros H; [reflexivity|].
  destruct (String.eqb k key) eqn:E.
  - apply String.eqb_eq in E. contradiction H. now left.
  - apply IH. intros Hin. apply H. now right.
Qed.

Section Names.

Variable country : Type.
Variable numeric : country -> string.
Variable get_name : string -> option country.
Variable get_common_name : string -> option country.

(** X14.  Every spelling of the alias table resolves like the name the
    table gives for it, whatever the data base holds: the same identifier
    or the same error. *)
Theorem aliases_resolve_alike (spelling name : string) :
  In (spelling, name) sipri_to_ISO_country_map ->
  get_country_id numeric get_name get_common_name spelling
  = get_country_id numeric get_name get_common_name name.
Proof.
  intros H.
  assert (Hall : forallb (fun kv =>
                   String.eqb (map_country_name (fst kv)) (map_country_name (snd kv))
                   && negb (String.eqb (fst kv) "Kosovo")
                   && negb (String.eqb (snd kv) "Kosovo"))
                   sipri_to_ISO_country_map = true)
    by (vm_compute; reflexivity).
  apply (proj1 (forallb_forall _ _) Hall) in H. simpl in H.
  apply andb_true_iff in H. destruct H as (H & Hv).
  apply andb_true_iff in H. destruct H as (Hmap & Hk).
  apply String.eqb_eq in Hmap. apply negb_true_iff in Hk, Hv.
  unfold get_country_id. now rewrite Hk, Hv, Hmap.
Qed.

(** X15.  A name that the alias table does not list and that has no "Rep."
    in it reaches the data base as it is: unless it is "Kosovo", its
    identifier is that of the record with this very name, else of the record
    with this common name, else the call raises. *)
Theorem plain_names_verbatim (country_name : string) :
  ~ In country_name (map fst sipri_to_ISO_country_map) ->
  occurs "Rep." country_name = false ->
  map_country_name country_name = country_name
  /\ (country_name <> "Kosovo" ->
      get_country_id numeric get_name get_common_name country_name
      = match get_name country_name with
        | Some c => Ok (CStr (numeric c))
        | None =>
            match get_common_name country_name with
            | Some c => Ok (CStr (numeric c))
            | None => Raise AttributeError
            end
        end).
Proof.
  intros Hkey Hrep.
  assert (Hmap : map_country_name country_name = country_name).
  { unfold map_country_name. rewrite (getitem_missing _ _ Hkey).
    unfold replace. now apply replace_absent. }
  split; [exact Hmap|]. intros HK. unfold get_country_id. rewrite Hmap.
  apply String.eqb_neq in HK. rewrite HK.
  destruct (get_name country_name); [reflexivity|].
  destruct (get_common_name country_name); reflexivity.
Qed.

End Names.

Lemma aliases_resolve_alike_witness :
  get_country_id Samples.iso_numeric Samples.by_name Samples.by_common_name
    "Congo, Dem. Rep."
  = get_country_id Samples.iso_numeric Samples.by_name Samples.by_common_name
      "Congo, The Democratic Republic of the".
Proof.
  apply (aliases_resolve_alike _ Samples.iso_numeric Samples.by_name
           Samples.by_common_name).
  simpl. right. right. left. reflexivity.
Defined.

Lemma plain_names_verbatim_witness :
  map_country_name "Bolivia" = "Bolivia"
  /\ get_country_id Samples.iso_numeric Samples.by_name Samples.by_common_name
       "Bolivia" = Ok (CStr "068").
Proof.
  destruct (plain_names_verbatim _ Samples.iso_numeric Samples.by_name
              Samples.by_common_name "Bolivia") as (Hmap & Hid).
  - simpl. intuition discriminate.
  - reflexivity.
  - split; [exact Hmap|]. rewrite Hid; [reflexivity | discriminate].
Defined.

(** ** The frames behind the histograms and the line chart *)

Lemma fltb_irrefl (x : float) : fltb x x = false.
Proof.
  unfold fltb, SFltb. destruct x as [s|s| |s m e]; try reflexivity.
  - now destruct s.
  - now rewrite SFcompare_refl_finite.
Qed.

Lemma fltb_nan_l (x : float) : fltb nan x = false.
Proof. reflexivity. Qed.

Lemma fltb_nan_r (x : float) : fltb x nan = false.
Proof. now destruct x. Qed.

(** X16.  The frame of [budget_histogram] is what [__select_df] returns for
    all the countries of the sheet and the single year (first tick [year],
    last year [year + 1]), without the rows that have a missing value and
    without the removed countries; so each of its rows has the year asked
    for, a budget that is not NaN and a country that is not removed. *)
Theorem budget_histogram_selection (self : sipri) (year : Z)
    (removed_countries : list cell) :
  exists selected,
    select_df (constant_USD self) (map Location (constant_USD self)) [year]
      (year + 1) = Ok selected
    /\ budget_histogram self year removed_countries
       = filter (fun r => negb (isin (Location r) removed_countries))
                (dropna selected)
    /\ forall r, In r (budget_histogram self year removed_countries) ->
         Year r = year /\ isnan (Budget r) = false
         /\ isin (Location r) removed_countries = false.
Proof.
  eexists. split; [apply select_df_cons|]. split.
  - unfold budget_histogram, dropna. rewrite !SheetMore.filter_twice.
    apply filter_ext_in. intros r Hr.
    rewrite (isin_In _ _ (in_map Location _ _ Hr)), andb_true_r.
    replace ((year <=? Year r) && (Year r <? year + 1)) with (Year r =? year).
    + destruct (isin (Location r) removed_countries); simpl;
        now rewrite ?andb_false_r, ?andb_true_r.
    + destruct (Year r =? year) eqn:E.
      * apply Z.eqb_eq in E. symmetry. apply andb_true_iff.
        rewrite Z.leb_le, Z.ltb_lt. lia.
      * apply Z.eqb_neq in E. symmetry. apply andb_false_iff.
        rewrite Z.leb_gt, Z.ltb_ge. lia.
  - intros r Hr. unfold budget_histogram, dropna in Hr.
    apply filter_In in Hr. destruct Hr as (Hr & Hna).
    apply filter_In in Hr. destruct Hr as (_ & Hr).
    apply andb_true_iff in Hr. destruct Hr as (Hy & Hrem).
    apply Z.eqb_eq in Hy. apply negb_true_iff in Hna.
    apply orb_false_iff in Hna. destruct Hna as (_ & Hna).
    split; [assumption|]. split; [assumption|].
    now destruct (isin (Location r) removed_countries).
Qed.

(** X17.  The frame of [budget_histogram_by_scale] is that of
    [budget_histogram] for the same year and no removed country, restricted
    to the budgets strictly between [scale] and [scale * 10]: a budget equal
    to either bound is left out, and a NaN [scale] leaves nothing. *)
Theorem budget_histogram_by_scale_selection (self : sipri) (year : Z)
    (scale : float) :
  budget_histogram_by_scale self year scale
  = filter (fun r => fltb scale (Budget r)
                     && fltb (Budget r) (fmul scale (round_Z 10)))
           (budget_histogram self year [])
  /\ (forall r, In r (budget_histogram_by_scale self year scale) ->
        Budget r <> scale /\ Budget r <> fmul scale (round_Z 10))
  /\ (isnan scale = true -> budget_histogram_by_scale self year scale = []).
Proof.
  split; [|split].
  - unfold budget_histogram_by_scale, budget_histogram, dropna.
    rewrite !SheetMore.filter_twice. apply filter_ext. intros r.
    change (isin (Location r) []) with false.
    destruct (Year r =? year); destruct (fltb scale (Budget r));
      destruct (fltb (Budget r) (fmul scale (round_Z 10)));
      destruct (negb (isna (Location r) || isnan (Budget r))); reflexivity.
  - intros r Hr. unfold budget_histogram_by_scale, dropna in Hr.
    apply filter_In in Hr. destruct Hr as (Hr & _).
    apply filter_In in Hr. destruct Hr as (_ & Hr).
    apply andb_true_iff in Hr. destruct Hr as (Hr & Hhigh).
    apply andb_true_iff in Hr. destruct Hr as (_ & Hlow).
    split; intros E.
    + rewrite E, fltb_irrefl in Hlow. discriminate.
    + rewrite E, fltb_irrefl in Hhigh. discriminate.
  - intros Hnan. destruct scale; try discriminate.
    unfold budget_histogram_by_scale.
    rewrite (SheetMore.filter_none _ (constant_USD self)); [reflexivity|].
    intros r _. rewrite fltb_nan_l. now rewrite andb_false_r.
Qed.

Lemma budget_histogram_by_scale_selection_witness :
  budget_histogram_by_scale Samples.dataset 2019 nan = [].
Proof.
  apply (budget_histogram_by_scale_selection Samples.dataset 2019 nan).
  reflexivity.
Defined.

(** X18.  With labels, [budget_line_chart] selects first, so an empty tick
    list raises [IndexError].  Then the labels go to the selected rows one by
    one in the order of the frame; when rows are selected, a list with more
    or fewer labels than rows raises [ValueError]; when no row is selected,
    the frame gets one row for each label, with nothing but the label in it.
    Without labels the frame is the selection. *)
Theorem budget_line_chart_labels (self : sipri) (country_names : list cell)
    (tick_year_list : list Z) (last_year : Z) (label_list : list cell) :
  (label_list = [] ->
   budget_line_chart self country_names tick_year_list last_year label_list
   = (selected_df <- select_df (constant_USD self) country_names tick_year_list
                       last_year ;;
      Ok (Plain selected_df)))
  /\ (tick_year_list = [] ->
      budget_line_chart self country_names tick_year_list last_year label_list
      = Raise IndexError)
  /\ (label_list <> [] ->
      forall selected_df,
        select_df (constant_USD self) country_names tick_year_list last_year
          = Ok selected_df ->
        (selected_df = [] ->
         budget_line_chart self country_names tick_year_list last_year label_list
         = Ok (Unfilled label_list))
        /\ (selected_df <> [] ->
            List.length label_list = List.length selected_df ->
            budget_line_chart self country_names tick_year_list last_year
              label_list = Ok (Labelled (combine selected_df label_list)))
        /\ (selected_df <> [] ->
            List.length label_list <> List.length selected_df ->
            budget_line_chart self country_names tick_year_list last_year
              label_list = Raise ValueError)).
Proof.
  split; [|split].
  - intros ->. reflexivity.
  - intros ->. reflexivity.
  - intros Hne selected_df Hsel. unfold budget_line_chart. rewrite Hsel. simpl.
    destruct label_list as [|l ls]; [contradiction|].
    unfold insert_labels. split; [|split].
    + intros ->. reflexivity.
    + intros Hrows Hlen. destruct selected_df as [|r rows]; [contradiction|].
      apply Nat.eqb_eq in Hlen. now rewrite Hlen.
    + intros Hrows Hlen. destruct selected_df as [|r rows]; [contradiction|].
      apply Nat.eqb_neq in Hlen. now rewrite Hlen.
Qed.

Lemma budget_line_chart_labels_witness :
  budget_line_chart Samples.dataset [CStr "USA"] [2019] 2021 [CStr "a"]
  = Raise ValueError
  /\ budget_line_chart Samples.dataset [CStr "Atlantis"] [2019] 2021 [CStr "a"]
     = Ok (Unfilled [CStr "a"]).
Proof.
  split.
  - destruct (budget_line_chart_labels Samples.dataset [CStr "USA"] [2019] 2021
                [CStr "a"]) as (_ & _ & H).
    apply (H ltac:(discriminate)
             [ mk_row 2019 (CStr "USA") (Samples.flt 700000);
               mk_row 2020 (CStr "USA") (Samples.flt 800000) ]).
    + vm_compute. reflexivity.
    + discriminate.
    + simpl. discriminate.
  - destruct (budget_line_chart_labels Samples.dataset [CStr "Atlantis"] [2019] 2021
                [CStr "a"]) as (_ & _ & H).
    apply (H ltac:(discriminate) []).
    + vm_compute. reflexivity.
    + reflexivity.
Defined.

End SipriMore.
